(** * The C templates of create-from-template: text, lexical structure, entry point

    The repository holds two files,
    [code-templates/c/CODE-C-001-C-source.c] and
    [compiler-templates/c/c-header.h].  Almost all of their content is C
    line comments; the text that a C compiler sees is the function [main]
    of the source template and the include guard of the header template.

    The development has four parts:
    - [CLex]: the lexical reading of C text (comments, blank lines, tokens,
      preprocessor directive lines, framed title lines);
    - [Cpp]: the conditional-inclusion fragment of the preprocessor that the
      header's include guard uses;
    - [CSource] and [CHeader]: the text of the two files, line by line, and
      the entry point [main] as a function on a program state;
    - the properties. *)

From Stdlib Require Import String Ascii List ZArith Lia Bool PeanoNat.
Import ListNotations.
Open Scope string_scope.
Open Scope list_scope.

(** The double-quote character, as a one-character string. *)
Definition dq : string := String "034"%char EmptyString.

(* ------------------------------------------------------------------ *)
(** * Lexical reading of C text *)

Module CLex.

(** ** Characters *)

Definition is_space (c : ascii) : bool :=
  let n := nat_of_ascii c in
  Nat.eqb n 32 || (Nat.leb 9 n && Nat.leb n 13).

Definition is_digit (c : ascii) : bool :=
  let n := nat_of_ascii c in Nat.leb 48 n && Nat.leb n 57.

Definition is_letter (c : ascii) : bool :=
  let n := nat_of_ascii c in
  (Nat.leb 65 n && Nat.leb n 90) || (Nat.leb 97 n && Nat.leb n 122)
  || Nat.eqb n 95.

Definition is_ident_char (c : ascii) : bool := is_letter c || is_digit c.

Definition is_blank (s : string) : bool :=
  forallb is_space (list_ascii_of_string s).

Definition is_empty (s : string) : bool :=
  match s with EmptyString => true | _ => false end.

(** ** Comments (translation phase 3)

    [scan m s] reads the characters of one line in mode [m] and returns
    the text left once comments are replaced by one space, with the mode
    reached at the end of the line.  String and character literals
    protect [//] and the block-comment opener; a backslash inside a
    literal protects the next character. *)

Inductive mode := Code | InString | InChar | InBlock | InLine.

Fixpoint scan (m : mode) (s : string) : string * mode :=
  match s with
  | EmptyString => (EmptyString, m)
  | String c rest =>
      match m with
      | Code =>
          if Ascii.eqb c "/" then
            match rest with
            | String d rest' =>
                if Ascii.eqb d "/" then
                  let (o, e) := scan InLine rest' in (String " " o, e)
                else if Ascii.eqb d "*" then
                  let (o, e) := scan InBlock rest' in (String " " o, e)
                else let (o, e) := scan Code rest in (String c o, e)
            | EmptyString => (String c EmptyString, Code)
            end
          else if Ascii.eqb c "034" then
            let (o, e) := scan InString rest in (String c o, e)
          else if Ascii.eqb c "'" then
            let (o, e) := scan InChar rest in (String c o, e)
          else let (o, e) := scan Code rest in (String c o, e)
      | InString =>
          if Ascii.eqb c "\" then
            match rest with
            | String d rest' =>
                let (o, e) := scan InString rest' in
                (String c (String d o), e)
            | EmptyString => (String c EmptyString, InString)
            end
          else if Ascii.eqb c "034" then
            let (o, e) := scan Code rest in (String c o, e)
          else let (o, e) := scan InString rest in (String c o, e)
      | InChar =>
          if Ascii.eqb c "\" then
            match rest with
            | String d rest' =>
                let (o, e) := scan InChar rest' in
                (String c (String d o), e)
            | EmptyString => (String c EmptyString, InChar)
            end
          else if Ascii.eqb c "'" then
            let (o, e) := scan Code rest in (String c o, e)
          else let (o, e) := scan InChar rest in (String c o, e)
      | InBlock =>
          if Ascii.eqb c "*" then
            match rest with
            | String d rest' =>
                if Ascii.eqb d "/" then scan Code rest'
                else scan InBlock rest
            | EmptyString => (EmptyString, InBlock)
            end
          else scan InBlock rest
      | InLine => scan InLine rest
      end
  end.

Fixpoint ends_with_backslash (s : string) : bool :=
  match s with
  | EmptyString => false
  | String c EmptyString => Ascii.eqb c "\"
  | String _ rest => ends_with_backslash rest
  end.

(** The mode in which the next line starts.  A block comment stays open;
    a line comment or a literal goes on only when the line ends in a
    backslash (the two physical lines are one logical line). *)
Definition next_line_mode (m : mode) (spliced : bool) : mode :=
  match m with
  | InBlock => InBlock
  | Code => Code
  | InLine | InString | InChar => if spliced then m else Code
  end.

Fixpoint strip_comments_from (m : mode) (ls : list string) : list string :=
  match ls with
  | [] => []
  | l :: ls' =>
      let (o, e) := scan m l in
      o :: strip_comments_from (next_line_mode e (ends_with_backslash l)) ls'
  end.

(** One entry per line of the file: what the compiler sees of that line. *)
Definition strip_comments (ls : list string) : list string :=
  strip_comments_from Code ls.

(** ** Numbered lines and the text outside comments *)

Fixpoint numbered_from {A : Type} (n : nat) (l : list A) : list (nat * A) :=
  match l with
  | [] => []
  | a :: l' => (n, a) :: numbered_from (S n) l'
  end.

(** Line numbers start at 1, as editors and compilers count them. *)
Definition numbered {A : Type} (l : list A) : list (nat * A) :=
  numbered_from 1 l.

(** The lines that hold something other than comments and white space,
    with their numbers and comment-free text. *)
Definition active_lines (ls : list string) : list (nat * string) :=
  filter (fun p => negb (is_blank (snd p))) (numbered (strip_comments ls)).

(** The [n]-th line of a file (1-based). *)
Definition line_at (ls : list string) (n : nat) : option string :=
  match n with
  | O => None
  | S k => nth_error ls k
  end.

(** ** Tokens

    Identifiers, keywords and numbers are maximal runs of letters, digits
    and underscores; every other non-space character is a token of its
    own. *)

Definition flush (cur : string) (ts : list string) : list string :=
  if is_empty cur then ts else cur :: ts.

Fixpoint tokenize (cur : string) (s : string) : list string :=
  match s with
  | EmptyString => flush cur []
  | String c rest =>
      if is_ident_char c then tokenize (cur ++ String c EmptyString) rest
      else if is_space c then flush cur (tokenize EmptyString rest)
      else flush cur (String c EmptyString :: tokenize EmptyString rest)
  end.

Definition tokens_of_line (s : string) : list string :=
  tokenize EmptyString s.

Definition active_tokens (ls : list string) : list string :=
  flat_map (fun p => tokens_of_line (snd p)) (active_lines ls).

Definition mem (t : string) (ts : list string) : bool :=
  existsb (String.eqb t) ts.

Definition is_identifier (t : string) : bool :=
  match t with
  | EmptyString => false
  | String c _ => is_letter c
  end.

(** The keywords of C11. *)
Definition keywords : list string :=
  [ "auto"; "break"; "case"; "char"; "const"; "continue"; "default"; "do";
    "double"; "else"; "enum"; "extern"; "float"; "for"; "goto"; "if";
    "inline"; "int"; "long"; "register"; "restrict"; "return"; "short";
    "signed"; "sizeof"; "static"; "struct"; "switch"; "typedef"; "union";
    "unsigned"; "void"; "volatile"; "while"; "_Alignas"; "_Alignof";
    "_Atomic"; "_Bool"; "_Complex"; "_Generic"; "_Imaginary"; "_Noreturn";
    "_Static_assert"; "_Thread_local" ].

Definition is_name (t : string) : bool :=
  is_identifier t && negb (mem t keywords).

(** ** Preprocessor directive lines

    A directive line is a line whose first non-space character is [#].
    [directive s] gives the directive's name and the text after it, white
    space trimmed on both sides. *)

Fixpoint ltrim (s : string) : string :=
  match s with
  | String c rest => if is_space c then ltrim rest else s
  | EmptyString => EmptyString
  end.

Fixpoint rtrim (s : string) : string :=
  match s with
  | EmptyString => EmptyString
  | String c rest =>
      let r := rtrim rest in
      if is_space c && is_empty r then EmptyString else String c r
  end.

Definition trim (s : string) : string := rtrim (ltrim s).

(** Splits a string after its longest prefix of characters satisfying
    [p]. *)
Fixpoint span (p : ascii -> bool) (s : string) : string * string :=
  match s with
  | String c rest =>
      if p c then let (a, b) := span p rest in (String c a, b)
      else (EmptyString, s)
  | EmptyString => (EmptyString, EmptyString)
  end.

Definition directive (s : string) : option (string * string) :=
  match ltrim s with
  | String c rest =>
      if Ascii.eqb c "#" then
        let (name, arg) := span is_ident_char (ltrim rest) in
        Some (name, trim arg)
      else None
  | EmptyString => None
  end.

(** The first word of a directive's argument: the macro name of
    [#ifndef], [#ifdef], [#define] and [#undef]. *)
Definition first_word (s : string) : string :=
  fst (span (fun c => negb (is_space c)) s).

(** The directives outside comments, with their line numbers. *)
Definition active_directives (ls : list string)
  : list (nat * (string * string)) :=
  flat_map (fun p => match directive (snd p) with
                     | Some d => [(fst p, d)]
                     | None => []
                     end) (active_lines ls).

Definition active_includes (ls : list string) : list (nat * string) :=
  flat_map (fun p => if String.eqb (fst (snd p)) "include"
                     then [(fst p, snd (snd p))] else [])
           (active_directives ls).

(** The macro names that a file defines outside comments. *)
Definition defined_macros (ls : list string) : list string :=
  flat_map (fun p => if String.eqb (fst (snd p)) "define"
                     then [first_word (snd (snd p))] else [])
           (active_directives ls).

Definition opens_conditional (name : string) : bool :=
  mem name ["if"; "ifdef"; "ifndef"].

(** Pairs every [#endif] with the conditional it closes: the result lists
    (line of the opening directive, line of its [#endif]); [None] when the
    conditionals are not balanced. *)
Fixpoint match_conditionals (open : list nat)
         (ds : list (nat * (string * string))) : option (list (nat * nat)) :=
  match ds with
  | [] => match open with [] => Some [] | _ :: _ => None end
  | (n, (name, _)) :: ds' =>
      if opens_conditional name then match_conditionals (n :: open) ds'
      else if String.eqb name "endif" then
        match open with
        | [] => None
        | o :: open' =>
            option_map (cons (o, n)) (match_conditionals open' ds')
        end
      else match_conditionals open ds'
  end.

(** ** Function definitions

    At file level (outside braces), a name followed by a parenthesised
    parameter list and an opening brace starts a function definition.
    The scan keeps the brace depth, the parenthesis depth, the name seen
    before the outermost open parenthesis, and whether the last token
    closed that parenthesis. *)

Record fscan := {
  braces : nat;
  parens : nat;
  candidate : option string;
  last_name : option string;
  closed : bool
}.

Definition fscan_start : fscan :=
  {| braces := 0; parens := 0; candidate := None; last_name := None;
     closed := false |}.

Definition fscan_step (st : fscan) (t : string) : fscan * list string :=
  if String.eqb t "{" then
    ({| braces := S (braces st); parens := parens st; candidate := None;
        last_name := None; closed := false |},
     match braces st, closed st, candidate st with
     | O, true, Some f => [f]
     | _, _, _ => []
     end)
  else if String.eqb t "}" then
    ({| braces := pred (braces st); parens := parens st; candidate := None;
        last_name := None; closed := false |}, [])
  else if String.eqb t "(" then
    ({| braces := braces st; parens := S (parens st);
        candidate := match parens st with
                     | O => last_name st
                     | S _ => candidate st
                     end;
        last_name := None; closed := false |}, [])
  else if String.eqb t ")" then
    ({| braces := braces st; parens := pred (parens st);
        candidate := candidate st; last_name := None;
        closed := Nat.eqb (parens st) 1 |}, [])
  else
    ({| braces := braces st; parens := parens st;
        candidate := match parens st with
                     | O => None
                     | S _ => candidate st
                     end;
        last_name := if is_name t then Some t else None;
        closed := false |}, []).

Fixpoint fscan_run (st : fscan) (ts : list string) : list string :=
  match ts with
  | [] => []
  | t :: ts' =>
      let (st', found) := fscan_step st t in found ++ fscan_run st' ts'
  end.

(** The names of the functions a file defines outside comments. *)
Definition defined_functions (ls : list string) : list string :=
  fscan_run fscan_start (active_tokens ls).

(** The tokens between the first opening brace and its closing brace. *)
Fixpoint until_close (depth : nat) (ts : list string) : list string :=
  match ts with
  | [] => []
  | t :: ts' =>
      if String.eqb t "{" then t :: until_close (S depth) ts'
      else if String.eqb t "}" then
        match depth with
        | O => []
        | S d => t :: until_close d ts'
        end
      else t :: until_close depth ts'
  end.

Fixpoint first_body (ts : list string) : list string :=
  match ts with
  | [] => []
  | t :: ts' => if String.eqb t "{" then until_close 0 ts' else first_body ts'
  end.

(** The tokens of a file that stand inside braces at file level: the
    statements of its function bodies (and the members of its aggregate
    definitions, when it has some). *)
Fixpoint inside_braces (depth : nat) (ts : list string) : list string :=
  match ts with
  | [] => []
  | t :: ts' =>
      if String.eqb t "{" then
        (match depth with O => [] | S _ => [t] end)
          ++ inside_braces (S depth) ts'
      else if String.eqb t "}" then
        (match depth with S (S _) => [t] | _ => [] end)
          ++ inside_braces (pred depth) ts'
      else
        (match depth with O => [] | S _ => [t] end)
          ++ inside_braces depth ts'
  end.

(** A call: a name directly followed by an open parenthesis. *)
Fixpoint calls (ts : list string) : list string :=
  match ts with
  | t :: ((u :: _) as ts') =>
      (if is_name t && String.eqb u "(" then [t] else []) ++ calls ts'
  | _ => []
  end.

Definition loop_keywords : list string := ["while"; "for"; "do"; "goto"].
Definition branch_keywords : list string := ["if"; "else"; "switch"; "case"].
Definition type_keywords : list string :=
  ["struct"; "enum"; "typedef"; "union"].
Definition storage_keywords : list string :=
  ["static"; "extern"; "_Thread_local"].

Definition mentions_any (ws ts : list string) : bool :=
  existsb (fun t => mem t ws) ts.

(** ** Framed title lines

    The templates set a title between two identical rule lines:
    [// ====] rules around the block markers, [// ────] rules around the
    section dividers. *)

Fixpoint replicate (n : nat) (u : string) : string :=
  match n with
  | O => EmptyString
  | S k => u ++ replicate k u
  end.

Definition block_rule : string := "// " ++ replicate 76 "=".
Definition section_rule : string := "// " ++ replicate 64 "─".

Fixpoint framed_from (n : nat) (rule title : string) (ls : list string)
  : list nat :=
  match ls with
  | a :: ((b :: c :: _) as tl) =>
      (if String.eqb a rule && String.eqb b title && String.eqb c rule
       then [S n] else [])
        ++ framed_from (S n) rule title tl
  | _ => []
  end.

(** The numbers of the lines equal to [title] that stand between two
    [rule] lines. *)
Definition framed (rule title : string) (ls : list string) : list nat :=
  framed_from 1 rule title ls.

Definition block_marker (name : string) (ls : list string) : list nat :=
  framed block_rule ("// " ++ name) ls.

Definition section_divider (name : string) (ls : list string) : list nat :=
  framed section_rule ("// " ++ name) ls.

End CLex.

(* ------------------------------------------------------------------ *)
(** * Conditional inclusion

    The fragment of the preprocessor that the header template uses:
    [#ifndef], [#define] and [#endif].  A macro name must be an
    identifier (C11 6.10.1 and 6.10.3); a directive whose macro name is
    not one is rejected, and so is the file. *)

Module Cpp.

(** An identifier: a letter or underscore first, then letters, digits and
    underscores; [defined] cannot name a macro. *)
Definition is_macro_name (s : string) : bool :=
  CLex.is_identifier s
  && forallb CLex.is_ident_char (list_ascii_of_string s)
  && negb (String.eqb s "defined").

(** A line as the preprocessor reads it; [arg] is the text after the
    directive's name, trimmed. *)
Inductive pline :=
| Ifndef (arg : string)
| Define (arg : string)
| Endif
| Text (s : string)
| Other (name arg : string).

Definition classify (code : string) : pline :=
  match CLex.directive code with
  | Some (name, arg) =>
      if String.eqb name "ifndef" then Ifndef arg
      else if String.eqb name "define" then Define arg
      else if String.eqb name "endif" then Endif
      else Other name arg
  | None => Text code
  end.

(** The lines the preprocessor acts on: comments and blank lines are
    gone. *)
Definition plines (ls : list string) : list pline :=
  map (fun p => classify (snd p)) (CLex.active_lines ls).

(** [#ifndef identifier]: the argument is one identifier and nothing
    else. *)
Definition ifndef_macro (arg : string) : option string :=
  if is_macro_name arg then Some arg else None.

(** What may follow the name in a [#define]: nothing, white space before
    the replacement list, or the parenthesis of a function-like macro. *)
Definition separated (rest : string) : bool :=
  match rest with
  | EmptyString => true
  | String c _ => CLex.is_space c || Ascii.eqb c "("
  end.

(** [#define identifier replacement-list]: the name is the longest run of
    identifier characters the argument starts with. *)
Definition define_macro (arg : string) : option string :=
  let (name, rest) := CLex.span CLex.is_ident_char arg in
  if is_macro_name name && separated rest then Some name else None.

Definition defined (m : string) (ms : list string) : bool := CLex.mem m ms.

Definition define (m : string) (ms : list string) : list string :=
  if defined m ms then ms else m :: ms.

(** A group is processed when every enclosing conditional holds. *)
Definition processing (conds : list bool) : bool := forallb (fun b => b) conds.

Inductive error :=
| BadMacroName (directive arg : string)
| Unbalanced
| Unsupported (directive : string).

(** Either the macros defined at the end and the text lines passed on to
    the compiler, or the reason the file is rejected. *)
Inductive outcome :=
| Done (ms : list string) (out : list string)
| Rejected (e : error).

(** [run ms conds ps] processes [ps] with the macros [ms] defined and the
    conditionals [conds] open.  In a group that is skipped, directives
    count for nesting only and their arguments are not read. *)
Fixpoint run (ms : list string) (conds : list bool) (ps : list pline)
  : outcome :=
  match ps with
  | [] => match conds with [] => Done ms [] | _ :: _ => Rejected Unbalanced end
  | Ifndef arg :: ps' =>
      if processing conds then
        match ifndef_macro arg with
        | Some m => run ms (negb (defined m ms) :: conds) ps'
        | None => Rejected (BadMacroName "ifndef" arg)
        end
      else run ms (false :: conds) ps'
  | Define arg :: ps' =>
      if processing conds then
        match define_macro arg with
        | Some m => run (define m ms) conds ps'
        | None => Rejected (BadMacroName "define" arg)
        end
      else run ms conds ps'
  | Endif :: ps' =>
      match conds with
      | [] => Rejected Unbalanced
      | _ :: conds' => run ms conds' ps'
      end
  | Text s :: ps' =>
      match run ms conds ps' with
      | Done ms' out => Done ms' (if processing conds then s :: out else out)
      | Rejected e => Rejected e
      end
  | Other name _ :: _ => Rejected (Unsupported name)
  end.

(** Processing a whole file from the top. *)
Definition include (ms : list string) (ls : list string) : outcome :=
  run ms [] (plines ls).

(** A file's text under an include guard [g]. *)
Definition guarded (g : string) (body : list string) : list pline :=
  Ifndef g :: Define g :: map Text body ++ [Endif].

End Cpp.

(* ------------------------------------------------------------------ *)
(** * Program state

    What a C function can observe and change beyond its arguments: the
    objects with static storage duration and the trace of its input and
    output.  A function body is a state transformer returning a value. *)

Module Exec.

Inductive event :=
| Output (stream text : string)
| Input (stream text : string)
| Spawn (thread : string).

Record state := {
  globals : string -> option Z;
  trace : list event
}.

Definition exec (A : Type) : Type := state -> A * state.

Definition ret {A : Type} (a : A) : exec A := fun s => (a, s).

Definition bind {A B : Type} (m : exec A) (k : A -> exec B) : exec B :=
  fun s => let (a, s') := m s in k a s'.

Definition exit_code (r : Z * state) : Z := fst r.
Definition final_state (r : Z * state) : state := snd r.

(** What a run adds to the trace it started from. *)
Definition produced (before : state) (r : Z * state) : option (list event) :=
  let n := List.length (trace before) in
  let after := trace (final_state r) in
  if Nat.leb n (List.length after) then Some (skipn n after) else None.

End Exec.

(* ------------------------------------------------------------------ *)
(** * The two template files *)

Record template := {
  path : string;
  lines : list string
}.

Definition has_extension (ext : string) (t : template) : bool :=
  let p := path t in
  let n := String.length p in
  let k := String.length ext in
  Nat.leb k n && String.eqb (substring (n - k) k p) ext.

(* ------------------------------------------------------------------ *)
(** ** The C source template, [CODE-C-001-C-source.c] *)

Module CSource.

(** Lines 1 to 50. *)
Definition lines_0001_0050 : list string :=
  [ "// ═══════════════════════════════════════════════════════════════════════════"
  ; "// TEMPLATE: C Source File (4-Block Structure)"
  ; "// Key: CODE-C-001"
  ; "// ═══════════════════════════════════════════════════════════════════════════"
  ; "//"
  ; "// DEPENDENCY CLASSIFICATION: [PURE/DEPENDED] ([deps if DEPENDED])"
  ; "//   - PURE: Standard library only - no internal project dependencies"
  ; "//   - DEPENDED: Needs internal headers - list them: (needs: header1.h, header2.h)"
  ; "//"
  ; "// This is a TEMPLATE file - copy and modify for new C source files."
  ; "// Replace all [bracketed] placeholders with actual content."
  ; "// Rename to appropriate name (e.g., main.c, module.c)."
  ; "//"
  ; "// Derived from: templates/code/go/CODE-GO-001-GO-executable.go"
  ; "// See: standards/code/4-block/ for complete documentation"
  ; "//"
  ; "// ═══════════════════════════════════════════════════════════════════════════"
  ; EmptyString
  ; "// [brief description of what this source file implements]."
  ; "//"
  ; "// [Executable Name] - CPI-SI [Project/System Name]"
  ; "//"
  ; "// For METADATA structure explanation, see: standards/code/4-block/CWS-STD-004-CODE-metadata-block.md"
  ; "//"
  ; "// # Biblical Foundation"
  ; "//"
  ; "// Scripture: [Relevant verse grounding this executable's purpose]"
  ; "//"
  ; "// Principle: [Kingdom principle this executable demonstrates]"
  ; "//"
  ; "// Anchor: [Supporting verse reinforcing the principle]"
  ; "//"
  ; "// # CPI-SI Identity"
  ; "//"
  ; "// Component Type: [Ladder/Baton/Rails - see CWS-STD-004 for explanations]"
  ; "//"
  ; "// Role: [Specific responsibility in system architecture]"
  ; "//"
  ; "// Paradigm: CPI-SI framework component"
  ; "//"
  ; "// # Authorship & Lineage"
  ; "//"
  ; "//   - Architect: [Who designed the approach and requirements]"
  ; "//   - Implementation: [Who wrote the code and verified it works]"
  ; "//   - Created: [YYYY-MM-DD]"
  ; "//   - Version: [MAJOR.MINOR.PATCH]"
  ; "//   - Modified: [YYYY-MM-DD - what changed]"
  ; "//"
  ; "// Version History:"
  ; "//"
  ].

(** Lines 51 to 100. *)
Definition lines_0051_0100 : list string :=
  [ "//   - [X.Y.Z] ([YYYY-MM-DD]) - [Brief description of changes]"
  ; "//   - [X.Y.Z] ([YYYY-MM-DD]) - [Brief description of changes]"
  ; "//"
  ; "// # Purpose & Function"
  ; "//"
  ; "// Purpose: [What problem does this executable solve?]"
  ; "//"
  ; "// Core Design: [Architectural pattern or paradigm]"
  ; "//"
  ; "// Key Features:"
  ; "//"
  ; "//   - [What it provides - major capabilities]"
  ; "//   - [What it enables - what others can build with this]"
  ; "//   - [What problems it solves - specific use cases]"
  ; "//"
  ; "// Philosophy: [Guiding principle for how this executable works]"
  ; "//"
  ; "// # Blocking Status"
  ; "//"
  ; "// [Blocking/Non-blocking]: [Brief explanation]"
  ; "//"
  ; "// Mitigation: [How blocking/failures handled]"
  ; "//"
  ; "// # Usage & Integration"
  ; "//"
  ; "// Command Line:"
  ; "//"
  ; "//	[executable-name] [args]        [Brief description]"
  ; "//	[executable-name] --help        Show usage"
  ; "//"
  ; "// Exit Codes:"
  ; "//"
  ; "//	0  - Success"
  ; "//	1  - General error"
  ; "//	2  - Usage/argument error"
  ; "//	[N] - [Specific error meaning]"
  ; "//"
  ; "// # Dependencies"
  ; "//"
  ; "// What This Needs:"
  ; "//"
  ; "//   - Standard Library: [list standard packages]"
  ; "//   - External: [None | list external packages with versions]"
  ; "//   - Internal: [project packages this depends on]"
  ; "//"
  ; "// What Uses This:"
  ; "//"
  ; "//   - Commands: [list commands]"
  ; "//   - Libraries: [list libraries]"
  ; "//   - Tools: [list tools]"
  ].

(** Lines 101 to 150. *)
Definition lines_0101_0150 : list string :=
  [ "//"
  ; "// Integration Points:"
  ; "//"
  ; "//   - [How other systems connect - Rails/Ladder/Baton mechanism]"
  ; "//   - [Cross-component interactions]"
  ; "//   - [Data flow or protocol integration]"
  ; "//"
  ; "// # Health Scoring"
  ; "//"
  ; "// System: [Base100 with 1-point granular scale from -100 to +100]"
  ; "//"
  ; "// States: [Granted (>+50), Deferred (±50), Denied (<-50)]"
  ; "//"
  ; "// [Operation Category]:"
  ; "//"
  ; "//   - [Specific operation]: ±X points"
  ; "//   - [Another operation]: ±Y points"
  ; "//"
  ; "// Cascade Multipliers: [If applicable - describe categories and multipliers]"
  ; "//"
  ; "//   - [Category]: [X]x ([brief rationale])"
  ; "//"
  ; "// See: [Reference to detailed health scoring documentation]"
  ; "//"
  ; "// Note: Scores reflect TRUE impact. Health scorer normalizes to -100 to +100 scale."
  ; "//"
  ; "// METADATA Omission Guide:"
  ; "//   - Dependency Safety: Include for Rails (signals verified), omit for Ladder/Baton"
  ; "//   - Cascade Multipliers: Include if operations cascade differently, omit if uniform"
  ; "//   - States: Include if component makes state decisions, omit if pure pass-through"
  ; "//   - Health Scoring Variations:"
  ; "//       * Config Provider: Provides health config, doesn't track own (use brief note)"
  ; "//       * Health Tracker: Full scoring with System/States/Operations"
  ; "//       * Pass-through: No health impact (omit or brief note)"
  ; "//   - Unlike SETUP (all sections required), METADATA omission signals component characteristics"
  ; EmptyString
  ; "// ============================================================================"
  ; "// END METADATA"
  ; "// ============================================================================"
  ; EmptyString
  ; "// ============================================================================"
  ; "// SETUP"
  ; "// ============================================================================"
  ; "//"
  ; "// For SETUP structure explanation, see: standards/code/4-block/CWS-STD-006-CODE-setup-block.md"
  ; "//"
  ; "// Section order: Includes → Defines → Types → Static Variables → Function Prototypes"
  ; "// This flows: dependencies → constants → data model → state → declarations"
  ; "//"
  ; "// Why this order: C requires declarations before use."
  ].

(** Lines 151 to 200. *)
Definition lines_0151_0200 : list string :=
  [ "// Headers provide type definitions and function declarations, source files implement."
  ; "//   - Includes bring in headers with type definitions and prototypes"
  ; "//   - Constants/Variables are executable-specific configuration"
  ; "//   - Types are minimal - just what's unique to this executable (arg parsing, etc.)"
  ; "//"
  ; "// IMPORTANT: All sections MUST be present, even if empty or reserved."
  ; "// A lean section comment is better than absence. Why:"
  ; "//   - Consistent structure across all files (navigation)"
  ; "//   - Clear extension points (where to add when needed)"
  ; "//   - Intentional vs forgotten (a reserved section is deliberate)"
  ; "//"
  ; "// For empty sections, use: // [Reserved: Brief reason why not needed]"
  ; EmptyString
  ; "// ────────────────────────────────────────────────────────────────"
  ; "// Includes"
  ; "// ────────────────────────────────────────────────────────────────"
  ; "//"
  ; "// Dependencies this component needs. Organized by source - standard library"
  ; "// provides C's built-in capabilities, project headers provide specific"
  ; "// functionality. Each include commented with purpose, not just name."
  ; "//"
  ; "// See: standards/code/4-block/sections/setup/CWS-SECTION-SETUP-001-imports.md"
  ; EmptyString
  ; "//--- Standard Library ---"
  ; "// Foundation headers providing C's built-in capabilities."
  ; "// Why stdlib: Stability, portability, if C works this works."
  ; EmptyString
  ; "// #include <stdio.h>      // Standard I/O for [purpose]"
  ; "// #include <stdlib.h>     // Memory allocation, conversion, exit()"
  ; "// #include <string.h>     // String manipulation for [purpose]"
  ; "// #include <stdint.h>     // Fixed-width integer types"
  ; "// #include <stdbool.h>    // Boolean type (C99+)"
  ; EmptyString
  ; "//--- Project Headers ---"
  ; "// Project-specific headers showing architectural dependencies."
  ; "// Why internal: Shared functionality within project boundary."
  ; EmptyString
  ; ("// #include " ++ dq ++ "[header].h" ++ dq ++ "           // [Purpose within project]")%string
  ; ("// #include " ++ dq ++ "../[path]/[header].h" ++ dq ++ " // [Shared library purpose]")%string
  ; EmptyString
  ; "//--- External Libraries ---"
  ; "// Third-party dependencies (use sparingly - each adds risk)."
  ; "// Why external: [Justify what stdlib lacks that requires this dependency]"
  ; "//"
  ; "// [Reserved: Currently none - foundational component uses standard library only]"
  ; EmptyString
  ; "// #include <[external].h>  // [Justification for external dependency]"
  ; EmptyString
  ; "// ────────────────────────────────────────────────────────────────"
  ; "// Defines (Constants)"
  ].

(** Lines 201 to 250. *)
Definition lines_0201_0250 : list string :=
  [ "// ────────────────────────────────────────────────────────────────"
  ; "//"
  ; "// Named values that never change. Magic numbers given meaningful names,"
  ; "// configuration values documented with reasoning. Defines prevent bugs"
  ; "// from typos and make intent clear."
  ; "//"
  ; "// Defines come BEFORE Types in C because they're preprocessor directives"
  ; "// that must be available before type definitions that might use them."
  ; "//"
  ; "// See: standards/code/4-block/sections/setup/CWS-SECTION-SETUP-002-constants.md"
  ; EmptyString
  ; "//--- [Category Name] Constants ---"
  ; "// [Brief explanation of this group and their purpose]"
  ; EmptyString
  ; "// // [CONSTANT_NAME] [brief description]."
  ; "// //"
  ; "// // Set to [value] based on [reasoning]. Higher values risk [problem],"
  ; "// // lower values cause [problem]."
  ; "// #define [CONSTANT_NAME] [value]  // [Inline context if needed]"
  ; "//"
  ; "// // [ANOTHER_CONSTANT] [brief description]."
  ; "// #define [ANOTHER_CONSTANT] [value]"
  ; EmptyString
  ; "//--- Defaults ---"
  ; "// Default values for optional configuration. Zero values should be sensible."
  ; EmptyString
  ; "// // DEFAULT_[THING] is used when [Thing] not explicitly configured."
  ; "// #define DEFAULT_[THING] [value]"
  ; EmptyString
  ; "// ────────────────────────────────────────────────────────────────"
  ; "// Static Variables"
  ; "// ────────────────────────────────────────────────────────────────"
  ; "//"
  ; "// File-level mutable state. Use sparingly - prefer constants for fixed"
  ; "// values and function parameters for dynamic behavior. Static variables here"
  ; "// are typically: state tracking, caches, or configuration that changes at runtime."
  ; "//"
  ; "// Static variables in C are file-scoped (internal linkage) when declared"
  ; "// outside functions. Use 'static' keyword to limit visibility to this file."
  ; "//"
  ; "// See: standards/code/4-block/sections/setup/CWS-SECTION-SETUP-003-variables.md"
  ; EmptyString
  ; "//--- State Variables ---"
  ; "// Variables tracking component state."
  ; "// Pattern: Initialize to safe defaults, modify through functions."
  ; EmptyString
  ; "// // [variable_name] [brief description]."
  ; "// //"
  ; "// // Default: [value]. Valid range: [min] to [max]."
  ; "// // Modified by: [what changes this - functions, initialization]"
  ].

(** Lines 251 to 300. *)
Definition lines_0251_0300 : list string :=
  [ "// // Thread-safety: [safe/unsafe - describe synchronization if any]"
  ; "// static [type] [variable_name] = [default_value];"
  ; EmptyString
  ; "//--- Configuration State ---"
  ; "// Runtime-modifiable settings. Document default values and valid ranges."
  ; EmptyString
  ; "// // [config_var] controls [behavior]."
  ; "// //"
  ; "// // Default: [value]. Valid range: [min] to [max]."
  ; "// // Modified by: [what changes this - flags, environment, API calls]"
  ; "// static [type] [config_var] = [default_value];"
  ; EmptyString
  ; "// ────────────────────────────────────────────────────────────────"
  ; "// Types"
  ; "// ────────────────────────────────────────────────────────────────"
  ; "//"
  ; "// Data structures organized bottom-up: simple building blocks first,"
  ; "// then composed structures. This organization reveals dependencies."
  ; "//"
  ; "// Types come AFTER Defines/Variables in C because they may depend on"
  ; "// constants defined earlier. Use typedef for cleaner type names."
  ; "//"
  ; "// See: standards/code/4-block/sections/setup/CWS-SECTION-SETUP-004-types.md"
  ; EmptyString
  ; "//--- Enumerations ---"
  ; "// Named constants for related values."
  ; "// Use typedef for cleaner usage."
  ; EmptyString
  ; "// // [EnumName] represents [what this models]."
  ; "// typedef enum {"
  ; "//     [ENUM_VALUE_1],  // [meaning]"
  ; "//     [ENUM_VALUE_2],  // [meaning]"
  ; "//     [ENUM_VALUE_3]   // [meaning]"
  ; "// } [EnumName];"
  ; EmptyString
  ; "//--- Building Blocks ---"
  ; "// Simple foundational types used throughout this component."
  ; "// These are the atoms - other types compose from these."
  ; EmptyString
  ; "// // [TypeName] represents [what this models]."
  ; "// //"
  ; "// // [2-4 sentences: what it represents, when used, key constraints]"
  ; "// //"
  ; "// // Fields:"
  ; "// //   - [field_name]: [purpose and meaning]"
  ; "// //   - [field_name]: [purpose, units if applicable, constraints]"
  ; "// //"
  ; "// // Example:"
  ; "// //   [TypeName] t = { .[field] = [value] };"
  ; "// typedef struct {"
  ].

(** Lines 301 to 350. *)
Definition lines_0301_0350 : list string :=
  [ "//     [type] [field_name];  // [Inline explanation]"
  ; "//     [type] [field_name];  // [Inline explanation]"
  ; "// } [TypeName];"
  ; EmptyString
  ; "//--- Composed Types ---"
  ; "// Complex types built from building blocks above."
  ; "// Document the composition relationship explicitly."
  ; EmptyString
  ; "// // [ComposedType] combines [building blocks] to represent [concept]."
  ; "// //"
  ; "// // [Explain relationships: why these pieces go together, what"
  ; "// // higher-level functionality they create together]"
  ; "// //"
  ; "// // Fields:"
  ; "// //   - [field_name]: [purpose]"
  ; "// //   - [block_field]: Uses [BuildingBlock] for [reason]"
  ; "// typedef struct {"
  ; "//     [type] [field_name];        // [Purpose]"
  ; "//     [BuildingBlock] [block_field];  // Composition from above"
  ; "// } [ComposedType];"
  ; EmptyString
  ; "//--- Configuration Types ---"
  ; "// Options and settings passed to functions."
  ; "// Zero-initialized values should provide sensible defaults."
  ; EmptyString
  ; "// // [Config] holds configuration options for [component]."
  ; "// //"
  ; "// // Zero-initialized values are sensible defaults."
  ; "// //"
  ; "// // Fields:"
  ; "// //   - [field]: [purpose] (default: 0/NULL)"
  ; "// typedef struct {"
  ; "//     [type] [field];  // [Purpose] (default: [zero value behavior])"
  ; "// } [Config];"
  ; EmptyString
  ; "// ────────────────────────────────────────────────────────────────"
  ; "// Function Prototypes"
  ; "// ────────────────────────────────────────────────────────────────"
  ; "//"
  ; "// Forward declarations of functions defined in BODY. C requires"
  ; "// declarations before use - prototypes enable calling functions"
  ; "// before their full definition appears."
  ; "//"
  ; "// See: standards/code/4-block/sections/setup/CWS-SECTION-SETUP-005-type-methods.md"
  ; "//"
  ; "// Key distinction:"
  ; "//   - SETUP prototypes: Declarations only (return type, name, parameters)"
  ; "//   - BODY functions: Full implementations with business logic"
  ; EmptyString
  ; "//--- Helper Function Prototypes ---"
  ].

(** Lines 351 to 400. *)
Definition lines_0351_0400 : list string :=
  [ "// Internal utility functions used by this file."
  ; EmptyString
  ; "// // [function_name] [brief description]."
  ; "// static [return_type] [function_name]([param_type] [param_name]);"
  ; EmptyString
  ; "//--- Core Operation Prototypes ---"
  ; "// Main business logic functions."
  ; EmptyString
  ; "// // [function_name] [brief description]."
  ; "// static [return_type] [function_name]([param_type] [param_name]);"
  ; EmptyString
  ; "//--- Public Function Prototypes ---"
  ; "// Functions exposed to other files (not static)."
  ; "// Note: For larger projects, these belong in header files."
  ; EmptyString
  ; "// // [function_name] [brief description]."
  ; "// [return_type] [function_name]([param_type] [param_name]);"
  ; EmptyString
  ; "// ────────────────────────────────────────────────────────────────"
  ; "// File-Level State (Rails Pattern)"
  ; "// ────────────────────────────────────────────────────────────────"
  ; "//"
  ; "// Infrastructure available throughout component. Rails pattern - each"
  ; "// component creates own logger independently without parameter passing."
  ; "// This is orthogonal infrastructure that all components attach to directly."
  ; "//"
  ; "// See: standards/code/patterns/CWS-PATTERN-003-CODE-rails.md"
  ; "// See: standards/code/4-block/sections/setup/CWS-SECTION-SETUP-006-package-level-state.md"
  ; "//"
  ; "// Note: Not all libraries need Rails infrastructure. Simple pure-function"
  ; "// libraries may skip this section entirely."
  ; EmptyString
  ; "//--- Rails Infrastructure ---"
  ; "// File-level logger and inspector for this component."
  ; "// Each component creates own infrastructure attachment independently."
  ; EmptyString
  ; "// // component_logger provides health tracking throughout this component."
  ; "// //"
  ; "// // All functions in this file use this for health scoring and"
  ; "// // event recording. Initialized in initialization function."
  ; "// static Logger* component_logger = NULL;"
  ; "//"
  ; "// // component_inspector provides detailed state inspection for debugging."
  ; "// //"
  ; "// // Enabled by default for development visibility. Can be toggled at"
  ; "// // runtime for production environments."
  ; "// static Inspector* component_inspector = NULL;"
  ; EmptyString
  ; "//--- Initialization Function ---"
  ; "// Initialize Rails infrastructure. Call at program startup."
  ].

(** Lines 401 to 450. *)
Definition lines_0401_0450 : list string :=
  [ EmptyString
  ; "// // init_[component] initializes this component's infrastructure."
  ; "// // Must be called before any other functions in this file."
  ; "// static void init_[component](void) {"
  ; "//     // Attach to logging rail"
  ; ("//     component_logger = logger_new(" ++ dq ++ "[componentname]" ++ dq ++ ");")%string
  ; "//"
  ; "//     // Attach to debugging rail"
  ; ("//     component_inspector = inspector_new(" ++ dq ++ "[componentname]" ++ dq ++ ");")%string
  ; "//     inspector_enable(component_inspector);  // Enable by default for development"
  ; "// }"
  ; EmptyString
  ; "// ============================================================================"
  ; "// END SETUP"
  ; "// ============================================================================"
  ; EmptyString
  ; "// ============================================================================"
  ; "// BODY"
  ; "// ============================================================================"
  ; "//"
  ; "// For BODY structure explanation, see: standards/code/4-block/CWS-STD-007-CODE-body-block.md"
  ; EmptyString
  ; "// ────────────────────────────────────────────────────────────────"
  ; "// Organizational Chart - Internal Structure"
  ; "// ────────────────────────────────────────────────────────────────"
  ; "// Maps bidirectional dependencies and baton flow within this component."
  ; "// Provides navigation for both development (what's available to use) and"
  ; "// maintenance (what depends on this function)."
  ; "//"
  ; "// See: standards/code/4-block/sections/body/CWS-SECTION-BODY-001-organizational-chart.md"
  ; "//"
  ; "// Ladder Structure (Dependencies):"
  ; "//"
  ; "//   Public APIs (Top Rungs - Orchestration)"
  ; "//   ├── [PublicFunction1]() → uses [helper1](), [coreOp1]()"
  ; "//   └── [PublicFunction2]() → uses [helper2](), [coreOp2]()"
  ; "//"
  ; "//   Core Operations (Middle Rungs - Business Logic)"
  ; "//   ├── [coreOp1]() → uses [helper1](), [helper3]()"
  ; "//   └── [coreOp2]() → uses [helper2]()"
  ; "//"
  ; "//   Helpers (Bottom Rungs - Foundations)"
  ; "//   ├── [helper1]() → pure function"
  ; "//   ├── [helper2]() → pure function"
  ; "//   └── [helper3]() → pure function"
  ; "//"
  ; "// Baton Flow (Execution Paths):"
  ; "//"
  ; "//   Entry → [PublicFunction1]()"
  ; "//     ↓"
  ].

(** Lines 451 to 500. *)
Definition lines_0451_0500 : list string :=
  [ "//   [helper1]() → [coreOp1]()"
  ; "//     ↓"
  ; "//   [helper3]()"
  ; "//     ↓"
  ; "//   Exit → return result"
  ; "//"
  ; "// Module Dependencies (Orchestrator Pattern):"
  ; "// For multi-file packages, document which modules this file calls."
  ; "//   [thisfile.go] (orchestrator) → [module1.go] ([purpose])"
  ; "//                                → [module2.go] ([purpose])"
  ; "//"
  ; "// APUs (Available Processing Units):"
  ; "// - [X] functions total"
  ; "// - [X] helpers (pure foundations)"
  ; "// - [X] core operations (business logic)"
  ; "// - [X] public APIs (exported interface)"
  ; EmptyString
  ; "// ────────────────────────────────────────────────────────────────"
  ; "// Helpers/Utilities - Internal Support"
  ; "// ────────────────────────────────────────────────────────────────"
  ; "// Foundation functions used throughout this component. Bottom rungs of"
  ; "// the ladder - simple, focused, reusable utilities. Usually not exported."
  ; "//"
  ; "// See: standards/code/4-block/sections/body/CWS-SECTION-BODY-002-helpers.md"
  ; "//"
  ; "// Note: For multi-file packages using orchestrator pattern, helpers may"
  ; "// be extracted to separate modules. Document with [Reserved]:"
  ; "//   [Reserved: [HelperName]() extracted to [module.go] (orchestrator pattern)."
  ; "//   This file acts as orchestrator - it calls helpers in other modules.]"
  ; "//"
  ; "// [Reserved: Additional helpers will emerge as component develops]"
  ; EmptyString
  ; "// [helperName] [does what]"
  ; "//"
  ; "// What It Does:"
  ; "// [Brief explanation - helpers are usually simple and focused]"
  ; "//"
  ; "// Parameters:"
  ; "//   [paramName]: [Purpose and expected values]"
  ; "//"
  ; "// Returns:"
  ; "//   [returnType]: [What's returned]"
  ; "//"
  ; "// Example usage:"
  ; "//"
  ; "//     [return_type] result = [helper_name]([params]);"
  ; "//"
  ; "// static [return_type] [helper_name]([param_type] [param_name]) {"
  ; "//     // Implementation - keep pure when possible (no side effects)"
  ; "//     // Pure functions are easier to test and reason about"
  ].

(** Lines 501 to 550. *)
Definition lines_0501_0550 : list string :=
  [ "//"
  ; "//     return [result];  // Return transformed/calculated result"
  ; "// }"
  ; EmptyString
  ; "// ────────────────────────────────────────────────────────────────"
  ; "// Core Operations - Business Logic"
  ; "// ────────────────────────────────────────────────────────────────"
  ; "// Component-specific functionality implementing primary purpose. Organized"
  ; "// by operational categories (descriptive subsections) below."
  ; "//"
  ; "// See: standards/code/4-block/sections/body/CWS-SECTION-BODY-003-core-operations.md"
  ; EmptyString
  ; "// ────────────────────────────────────────────────────────────────"
  ; "// [Category 1 Name] - [Purpose]"
  ; "// ────────────────────────────────────────────────────────────────"
  ; "// What These Do:"
  ; "// [High-level description of this category of operations]"
  ; "//"
  ; "// Why Separated:"
  ; "// [Reasoning for this grouping - explain organization logic]"
  ; "//"
  ; "// Extension Point:"
  ; "// To add new [operation type], create function following [naming pattern]."
  ; "// Each [operation] should [pattern to follow]. Update [orchestration function]"
  ; "// to integrate new operation."
  ; "//"
  ; "// Pattern to follow:"
  ; "//   1. [Step 1 - create function with specific signature]"
  ; "//   2. [Step 2 - implement with specific behavior]"
  ; "//   3. [Step 3 - integrate with existing code]"
  ; "//   4. [Step 4 - update tests]"
  ; "//"
  ; "// Example categories:"
  ; "// - Validation: Input checking, constraint verification"
  ; "// - Conversion: Data transformation between formats"
  ; "// - Processing: Core algorithms and computations"
  ; "// - Formatting: Output preparation"
  ; "// - Analysis: Data examination and metrics"
  ; EmptyString
  ; "// [FunctionName] [does what]"
  ; "//"
  ; "// What It Does:"
  ; "// [Detailed explanation of function purpose and behavior]"
  ; "//"
  ; "// Parameters:"
  ; "//   [paramName]: [Purpose and expected values]"
  ; "//"
  ; "// Returns:"
  ; "//   [returnType]: [What's returned and meaning]"
  ; "//   error: [When error returned, what it means]"
  ].

(** Lines 551 to 600. *)
Definition lines_0551_0600 : list string :=
  [ "//"
  ; "// Health Impact:"
  ; "//   Success: +X points ([reasoning for value])"
  ; "//   Failure: -X points ([reasoning for value])"
  ; "//"
  ; "// Troubleshooting (for operations that commonly have issues):"
  ; ("//   Problem: " ++ dq ++ "[common error message]" ++ dq)%string
  ; "//     Check: [What to verify - file exists, permissions, etc.]"
  ; "//     Check: [Another thing to verify]"
  ; "//     Solution: [How to fix the problem]"
  ; "//"
  ; ("//   Problem: " ++ dq ++ "[another common issue]" ++ dq)%string
  ; "//     Check: [Diagnostic step]"
  ; "//     Solution: [How to resolve]"
  ; "//"
  ; "// Include troubleshooting for: File I/O, network operations, configuration"
  ; "// parsing, external dependencies, complex validation. Focus on genuinely"
  ; "// common issues, not every edge case."
  ; "//"
  ; "// Example usage:"
  ; "//"
  ; "//     [return_type] result;"
  ; "//     int status = [function_name]([params], &result);"
  ; "//     if (status != 0) {"
  ; "//         // [How to handle errors]"
  ; "//     }"
  ; "//"
  ; "// static int [function_name]([param_type] [param_name], [return_type]* result) {"
  ; "//     // DEBUGGING: Capture input state before processing"
  ; ("//     // inspector_snapshot(component_inspector, " ++ dq ++ "[operation-name]-start" ++ dq ++ ", ...);")%string
  ; "//"
  ; "//     // [Implementation with business logic]"
  ; "//"
  ; "//     // Health tracking pattern:"
  ; "//     // if ([success condition]) {"
  ; ("//     //     logger_success(component_logger, " ++ dq ++ "[description]" ++ dq ++ ", +X);")%string
  ; "//     // } else {"
  ; ("//     //     logger_failure(component_logger, " ++ dq ++ "[description]" ++ dq ++ ", " ++ dq ++ "[reason]" ++ dq ++ ", -X);")%string
  ; "//     // }"
  ; "//"
  ; "//     // DEBUGGING: Capture expected vs actual state divergence"
  ; ("//     // inspector_expected_state(component_inspector, " ++ dq ++ "[check-name]" ++ dq ++ ", expected, actual);")%string
  ; "//"
  ; "//     // *result = [computed_value];"
  ; "//     // return 0;  // Success"
  ; "// }"
  ; EmptyString
  ; "// ────────────────────────────────────────────────────────────────"
  ; "// [Category 2 Name] - [Purpose]"
  ; "// ────────────────────────────────────────────────────────────────"
  ].

(** Lines 601 to 650. *)
Definition lines_0601_0650 : list string :=
  [ "// [Same documentation pattern as Category 1]"
  ; EmptyString
  ; "// ────────────────────────────────────────────────────────────────"
  ; "// Error Handling/Recovery Patterns"
  ; "// ────────────────────────────────────────────────────────────────"
  ; "// Centralized error management ensuring component handles failures gracefully."
  ; "// Provides safety boundaries and recovery strategies for robust operation."
  ; "//"
  ; "// See: standards/code/4-block/sections/body/CWS-SECTION-BODY-004-error-handling.md"
  ; "//"
  ; "// Design Principle: [Blocking/Non-blocking] - [Brief explanation of philosophy]"
  ; "// Example: Non-blocking - [component] failures never interrupt [main operation]."
  ; "// The work of [main purpose] is more important than [secondary concern]."
  ; "//"
  ; "// Recovery Strategy:"
  ; "//   - [Error type 1]: [How handled - e.g., Graceful degradation (fallback behavior)]"
  ; "//   - [Error type 2]: [How handled - e.g., Fallback to alternative classification]"
  ; "//   - [Error type 3]: [How handled - e.g., No panics - caught and logged]"
  ; "//"
  ; "// Common patterns:"
  ; "// - Return codes: Use int return values (0 = success, non-zero = error)"
  ; "// - Error context: Log detailed context before returning error code"
  ; "// - Graceful degradation: Continue with reduced functionality"
  ; "// - Retry logic: Handle transient failures"
  ; "// - Cleanup on error: Use goto for centralized cleanup (Linux kernel style)"
  ; EmptyString
  ; "// log_error logs an error with context and health tracking."
  ; "//"
  ; "// Pattern for consistent error logging throughout component."
  ; "// Logs error details and updates health score."
  ; "//"
  ; "// Parameters:"
  ; "//   function: Name of function where error occurred"
  ; "//   message: Error description"
  ; "//   health_delta: Negative health impact of error"
  ; "//"
  ; "// Example usage:"
  ; "//"
  ; "//     if (result == NULL) {"
  ; ("//         log_error(" ++ dq ++ "some_function" ++ dq ++ ", " ++ dq ++ "memory allocation failed" ++ dq ++ ", -10);")%string
  ; "//         return -1;"
  ; "//     }"
  ; "//"
  ; "// static void log_error(const char* function, const char* message, int health_delta) {"
  ; "//     logger_error(component_logger, function, message, health_delta);"
  ; "// }"
  ; EmptyString
  ; "// Cleanup pattern using goto (Linux kernel style)."
  ; "//"
  ; "// Centralizes cleanup code for functions with multiple exit points."
  ].

(** Lines 651 to 700. *)
Definition lines_0651_0700 : list string :=
  [ "// Each resource acquisition has matching cleanup label."
  ; "//"
  ; "// Example usage:"
  ; "//"
  ; "//     int some_function(void) {"
  ; "//         int result = -1;"
  ; "//         char* buffer = NULL;"
  ; "//         FILE* file = NULL;"
  ; "//"
  ; "//         buffer = malloc(SIZE);"
  ; "//         if (buffer == NULL) goto cleanup;"
  ; "//"
  ; ("//         file = fopen(" ++ dq ++ "path" ++ dq ++ ", " ++ dq ++ "r" ++ dq ++ ");")%string
  ; "//         if (file == NULL) goto cleanup_buffer;"
  ; "//"
  ; "//         // ... do work ..."
  ; "//         result = 0;  // Success"
  ; "//"
  ; "//     cleanup_file:"
  ; "//         fclose(file);"
  ; "//     cleanup_buffer:"
  ; "//         free(buffer);"
  ; "//     cleanup:"
  ; "//         return result;"
  ; "//     }"
  ; EmptyString
  ; "// ────────────────────────────────────────────────────────────────"
  ; "// Public APIs - Exported Interface"
  ; "// ────────────────────────────────────────────────────────────────"
  ; "// Exported functions defining component's public interface. Top rungs of"
  ; "// the ladder - orchestrate helpers and core operations into complete"
  ; "// functionality. Simple by design - complexity lives in helpers and core"
  ; "// operations, Public APIs orchestrate proven pieces."
  ; "//"
  ; "// See: standards/code/4-block/sections/body/CWS-SECTION-BODY-005-public-apis.md"
  ; "//"
  ; "// Organization: Group public APIs by purpose using category dividers:"
  ; "//   // ═══ Category Name ═══"
  ; "//   // [Functions in this category]"
  ; "//"
  ; "// Common categories: Initialization, Creation, Operations, Health, Cleanup"
  ; EmptyString
  ; "// ═══ [Category Name] ═══"
  ; EmptyString
  ; "// [PublicFunctionName] [does what at high level]"
  ; "//"
  ; "// What It Does:"
  ; "// [Detailed explanation of complete operation]"
  ; "//"
  ; "// Parameters:"
  ].

(** Lines 701 to 750. *)
Definition lines_0701_0750 : list string :=
  [ "//   [paramName]: [Purpose and expected values]"
  ; "//"
  ; "// Returns:"
  ; "//   [returnType]: [What's returned and meaning]"
  ; "//   error: [When error returned, what it means]"
  ; "//"
  ; "// Health Impact:"
  ; "//   Success: +X points ([reasoning])"
  ; "//   Validation failure: -X points ([reasoning])"
  ; "//   Processing failure: -X points ([reasoning])"
  ; "//"
  ; "// Example usage:"
  ; "//"
  ; "//     [return_type] result;"
  ; "//     int status = [public_function_name]([params], &result);"
  ; "//     if (status != 0) {"
  ; ("//         fprintf(stderr, " ++ dq ++ "Operation failed\n" ++ dq ++ ");")%string
  ; "//         return;"
  ; "//     }"
  ; ("//     printf(" ++ dq ++ "Result: %d\n" ++ dq ++ ", result);")%string
  ; "//"
  ; "// int [public_function_name]([param_type] [param_name], [return_type]* result) {"
  ; "//     // DEBUGGING: Capture input state before processing"
  ; ("//     // inspector_snapshot(component_inspector, " ++ dq ++ "[operation]-start" ++ dq ++ ", ...);")%string
  ; "//"
  ; "//     // Validate using helper function"
  ; "//     if (![helper_validation]([input])) {  // Check if input meets criteria"
  ; ("//         logger_failure(component_logger, " ++ dq ++ "invalid input" ++ dq ++ ", " ++ dq ++ "validation failed" ++ dq ++ ", -X);")%string
  ; "//         return -1;  // Validation error"
  ; "//     }"
  ; "//"
  ; "//     // Process using core operation (orchestrate, don't duplicate)"
  ; "//     [temp_type] temp_result;"
  ; "//     if ([core_operation]([input], &temp_result) != 0) {  // Apply business logic"
  ; ("//         logger_error(component_logger, " ++ dq ++ "processing failed" ++ dq ++ ", -X);")%string
  ; "//         return -2;  // Processing error"
  ; "//     }"
  ; "//"
  ; "//     // Success - log with health impact"
  ; ("//     logger_success(component_logger, " ++ dq ++ "[operation] complete" ++ dq ++ ", +X);")%string
  ; "//"
  ; "//     // DEBUGGING: Capture final state"
  ; ("//     // inspector_snapshot(component_inspector, " ++ dq ++ "[operation]-complete" ++ dq ++ ", ...);")%string
  ; "//"
  ; "//     *result = temp_result;  // Copy result to output parameter"
  ; "//     return 0;  // Success"
  ; "// }"
  ; EmptyString
  ; "// ============================================================================"
  ; "// END BODY"
  ].

(** Lines 751 to 800. *)
Definition lines_0751_0800 : list string :=
  [ "// ============================================================================"
  ; EmptyString
  ; "// ============================================================================"
  ; "// CLOSING"
  ; "// ============================================================================"
  ; "//"
  ; "// For CLOSING structure explanation, see: standards/code/4-block/CWS-STD-008-CODE-closing-block.md"
  ; "//"
  ; "// ────────────────────────────────────────────────────────────────"
  ; "// Code Validation: [executableName] (Command)"
  ; "// ────────────────────────────────────────────────────────────────"
  ; "// For Code Validation section explanation, see: standards/code/4-block/sections/closing/CWS-SECTION-CLOSING-001-code-validation.md"
  ; "//"
  ; "// Build Verification:"
  ; "//   - gcc -Wall -Wextra -o [binary-name] [source].c (compiles without warnings)"
  ; "//   - clang --analyze [source].c (static analysis)"
  ; "//   - make (if using Makefile)"
  ; "//"
  ; "// Runtime Verification:"
  ; "//   - ./[binary-name] --help (shows usage)"
  ; "//   - ./[binary-name] [test-args] (produces expected output)"
  ; "//   - ./[binary-name] [invalid-args] (handles errors gracefully)"
  ; "//"
  ; "// Testing Requirements:"
  ; "//   - Run test executable or CUnit/Unity tests"
  ; "//   - Verify [output/files/results] created correctly"
  ; "//   - Check exit codes match expected behavior"
  ; "//   - Use valgrind --leak-check=full ./[binary-name] for memory checking"
  ; "//   - Confirm signal handling works (Ctrl+C graceful shutdown)"
  ; "//"
  ; "// Integration Testing:"
  ; "//   - Test with actual input data"
  ; "//   - Verify [specific behavior] in real usage context"
  ; "//   - Check [performance/resource usage] under load"
  ; "//   - Validate output format with downstream consumers"
  ; "//"
  ; "// Example validation commands:"
  ; "//"
  ; "//     # Build and verify"
  ; "//     gcc -Wall -Wextra -Werror -std=c11 -o [binary-name] [source].c"
  ; "//     clang --analyze [source].c"
  ; "//"
  ; "//     # Test execution"
  ; "//     ./[binary-name] --help"
  ; "//     ./[binary-name] [typical-args]"
  ; "//     echo $?  # Check exit code"
  ; "//"
  ; "//     # Memory check"
  ; "//     valgrind --leak-check=full ./[binary-name] [args]"
  ; "//"
  ].

(** Lines 801 to 850. *)
Definition lines_0801_0850 : list string :=
  [ "// ────────────────────────────────────────────────────────────────"
  ; "// Code Execution: [executableName] (Command)"
  ; "// ────────────────────────────────────────────────────────────────"
  ; "// For Code Execution section explanation, see: standards/code/4-block/sections/closing/CWS-SECTION-CLOSING-002-code-execution.md"
  ; "//"
  ; "// Entry Point: main()"
  ; "//"
  ; "// Execution Flow:"
  ; "//   1. Parse command-line arguments"
  ; "//   2. Initialize configuration/logging"
  ; "//   3. Validate inputs"
  ; "//   4. Execute core operation(s)"
  ; "//   5. Handle results/output"
  ; "//   6. Cleanup and exit"
  ; "//"
  ; "// Exit Codes:"
  ; "//   0 - Success"
  ; "//   1 - General error"
  ; "//   2 - Usage/argument error"
  ; "//   [N] - [Specific error meaning]"
  ; "//"
  ; "// Signal Handling:"
  ; "//   SIGINT (Ctrl+C) - Graceful shutdown"
  ; "//   SIGTERM - Graceful shutdown"
  ; "//   [Other signals as needed]"
  ; EmptyString
  ; "// main is the entry point for [executable-name]."
  ; "//"
  ; "// Orchestrates [brief description of what this executable does]."
  ; "// See execution flow above for step-by-step process."
  ; "//"
  ; "// Parameters:"
  ; "//   argc: Argument count"
  ; "//   argv: Argument vector (array of strings)"
  ; "//"
  ; "// Returns:"
  ; "//   0 on success, non-zero on error (see Exit Codes above)"
  ; "int main(int argc, char* argv[]) {"
  ; "    // 1. Parse command-line arguments"
  ; "    // [ArgStruct] args;"
  ; "    // if (parse_args(argc, argv, &args) != 0) {"
  ; ("    //     fprintf(stderr, " ++ dq ++ "Error: Invalid arguments\n" ++ dq ++ ");")%string
  ; "    //     return 2;"
  ; "    // }"
  ; EmptyString
  ; "    // 2. Initialize configuration/logging"
  ; "    // [Config] config;"
  ; "    // load_config(&config);"
  ; "    // setup_logging(&config);"
  ; EmptyString
  ].

(** Lines 851 to 900. *)
Definition lines_0851_0900 : list string :=
  [ "    // 3. Validate inputs"
  ; "    // if (validate_inputs(&args) != 0) {"
  ; ("    //     fprintf(stderr, " ++ dq ++ "Error: Validation failed\n" ++ dq ++ ");")%string
  ; "    //     return 2;"
  ; "    // }"
  ; EmptyString
  ; "    // 4. Execute core operation(s)"
  ; "    // [ResultType] result;"
  ; "    // if (execute_main(&args, &config, &result) != 0) {"
  ; ("    //     fprintf(stderr, " ++ dq ++ "Error: Execution failed\n" ++ dq ++ ");")%string
  ; "    //     return 1;"
  ; "    // }"
  ; EmptyString
  ; "    // 5. Handle results/output"
  ; "    // output_results(&result);"
  ; EmptyString
  ; "    // 6. Cleanup and exit successfully"
  ; "    // cleanup();"
  ; "    return 0;"
  ; "}"
  ; "//"
  ; "// ────────────────────────────────────────────────────────────────"
  ; "// Code Cleanup: [executableName] (Command)"
  ; "// ────────────────────────────────────────────────────────────────"
  ; "// For Code Cleanup section explanation, see: standards/code/4-block/sections/closing/CWS-SECTION-CLOSING-003-code-cleanup.md"
  ; "//"
  ; "// Resource Management:"
  ; "//   - [Resource type 1]: [How it's managed - auto/manual/deferred]"
  ; "//   - [Resource type 2]: [Management strategy]"
  ; "//   - [Resource type 3]: [Cleanup approach]"
  ; "//"
  ; "// Graceful Shutdown:"
  ; "//   - Signal handler catches SIGINT/SIGTERM"
  ; "//   - In-progress operations complete or rollback"
  ; "//   - Resources released in reverse order of acquisition"
  ; "//   - Exit with appropriate code"
  ; "//"
  ; "// Error State Cleanup:"
  ; "//   - Check return values and clean up on error paths"
  ; "//   - [Specific cleanup on error paths if applicable]"
  ; "//   - [Any rollback mechanisms]"
  ; "//"
  ; "// Memory Management:"
  ; "//   - C requires manual memory management (malloc/free)"
  ; "//   - Track all allocations, ensure matching frees"
  ; "//   - Use valgrind for leak detection during development"
  ; "//   - [Large allocations to be aware of]"
  ; "//"
  ; "// Example signal handling pattern:"
  ; "//"
  ].

(** Lines 901 to 950. *)
Definition lines_0901_0950 : list string :=
  [ "//     #include <signal.h>"
  ; "//"
  ; "//     volatile sig_atomic_t shutdown_requested = 0;"
  ; "//"
  ; "//     void signal_handler(int signum) {"
  ; "//         shutdown_requested = 1;"
  ; "//     }"
  ; "//"
  ; "//     int main(int argc, char* argv[]) {"
  ; "//         signal(SIGINT, signal_handler);"
  ; "//         signal(SIGTERM, signal_handler);"
  ; "//"
  ; "//         while (!shutdown_requested) {"
  ; "//             // Main loop"
  ; "//         }"
  ; "//"
  ; "//         cleanup();"
  ; "//         return 0;"
  ; "//     }"
  ; "//"
  ; "// Example cleanup pattern:"
  ; "//"
  ; "//     int main(int argc, char* argv[]) {"
  ; "//         Resource* resource = acquire_resource();"
  ; "//         if (resource == NULL) {"
  ; "//             return 1;"
  ; "//         }"
  ; "//"
  ; "//         int result = do_work(resource);"
  ; "//"
  ; "//         // Cleanup before exit"
  ; "//         release_resource(resource);"
  ; "//         return result;"
  ; "//     }"
  ; "//"
  ; "// ════════════════════════════════════════════════════════════════"
  ; "// FINAL DOCUMENTATION"
  ; "// ════════════════════════════════════════════════════════════════"
  ; "//"
  ; "// ────────────────────────────────────────────────────────────────"
  ; "// Executable Overview & Usage Summary"
  ; "// ────────────────────────────────────────────────────────────────"
  ; "// For Executable Overview section explanation, see: standards/code/4-block/sections/closing/CWS-SECTION-CLOSING-004-library-overview.md"
  ; "//"
  ; ("// Purpose: See METADATA " ++ dq ++ "Purpose & Function" ++ dq ++ " section above")%string
  ; "//"
  ; ("// Provides: See METADATA " ++ dq ++ "Key Features" ++ dq ++ " list above for comprehensive capabilities")%string
  ; "//"
  ; "// Quick summary (high-level only - details in METADATA):"
  ; "//   - [1-2 sentence overview of what this executable does]"
  ].

(** Lines 951 to 1000. *)
Definition lines_0951_1000 : list string :=
  [ "//   - [Feature 5]: [What it does]"
  ; "//"
  ; ("// Usage Pattern: See METADATA " ++ dq ++ "Usage & Integration" ++ dq ++ " section above for")%string
  ; "// complete command-line usage guide"
  ; "//"
  ; ("// Commands/Flags: See METADATA " ++ dq ++ "Usage & Integration" ++ dq ++ " section above for complete")%string
  ; "// command-line interface organized by category"
  ; "//"
  ; ("// Architecture: See METADATA " ++ dq ++ "CPI-SI Identity" ++ dq ++ " section above for complete")%string
  ; "// architectural role (Rails/Ladder/Baton) explanation"
  ; "//"
  ; "// ────────────────────────────────────────────────────────────────"
  ; "// Modification Policy"
  ; "// ────────────────────────────────────────────────────────────────"
  ; "// For Modification Policy section explanation, see: standards/code/4-block/sections/closing/CWS-SECTION-CLOSING-005-modification-policy.md"
  ; "//"
  ; "// Safe to Modify (Extension Points):"
  ; "//   ✅ Add new [functions/types/constants] (follow existing patterns)"
  ; "//   ✅ Add new [helper functions] in appropriate groups"
  ; "//   ✅ Extend [specific feature] (add more [specific thing])"
  ; "//   ✅ [Other safe modification]"
  ; "//   ✅ [Other safe modification]"
  ; "//"
  ; "// Modify with Extreme Care (Breaking Changes):"
  ; "//   ⚠️ Public API function signatures - breaks all calling code"
  ; "//   ⚠️ [Exported struct] fields - breaks code accessing fields directly"
  ; "//   ⚠️ [Critical system behavior] - affects all users"
  ; "//   ⚠️ [Data format/protocol] - breaks parsing tools"
  ; "//   ⚠️ [Core algorithm] - affects correctness"
  ; "//"
  ; "// NEVER Modify (Foundational Rails):"
  ; "//   ❌ 4-block structure (METADATA, SETUP, BODY, CLOSING)"
  ; "//   ❌ [Fundamental principle 1]"
  ; "//   ❌ [Fundamental principle 2]"
  ; "//   ❌ [Architectural pattern - Rails/etc]"
  ; "//   ❌ [Core design invariant]"
  ; "//"
  ; "// Validation After Modifications:"
  ; ("//   See " ++ dq ++ "Code Validation" ++ dq ++ " section in GROUP 1: CODING above for comprehensive")%string
  ; "//   testing requirements, build verification, and integration testing procedures."
  ; "//"
  ; "// ────────────────────────────────────────────────────────────────"
  ; "// Ladder and Baton Flow"
  ; "// ────────────────────────────────────────────────────────────────"
  ; "// For Ladder and Baton Flow section explanation, see: standards/code/4-block/sections/closing/CWS-SECTION-CLOSING-006-ladder-baton-flow.md"
  ; "//"
  ; ("// See BODY " ++ dq ++ "Organizational Chart - Internal Structure" ++ dq ++ " section above for")%string
  ; "// complete ladder structure (dependencies) and baton flow (execution paths)."
  ; "//"
  ; "// The Organizational Chart in BODY provides the detailed map showing:"
  ].

(** Lines 1001 to 1050. *)
Definition lines_1001_1050 : list string :=
  [ "// - All functions and their dependencies (ladder)"
  ; "// - Complete execution flow paths (baton)"
  ; "// - APU count (Available Processing Units)"
  ; "//"
  ; "// Quick architectural summary (details in BODY Organizational Chart):"
  ; "// - [X] public APIs orchestrate [Y] core operations using [Z] helpers"
  ; "// - Ladder: [Brief dependency summary]"
  ; "// - Baton: [Brief execution flow summary]"
  ; "//"
  ; "// ────────────────────────────────────────────────────────────────"
  ; "// Surgical Update Points (Extension Guide)"
  ; "// ────────────────────────────────────────────────────────────────"
  ; "// For Surgical Update Points section explanation, see: standards/code/4-block/sections/closing/CWS-SECTION-CLOSING-007-surgical-update-points.md"
  ; "//"
  ; ("// See BODY " ++ dq ++ "Core Operations" ++ dq ++ " subsection header comments above for detailed")%string
  ; ("// extension points. Each subsection includes " ++ dq ++ "Extension Point" ++ dq ++ " guidance showing:")%string
  ; "// - Where to add new functionality"
  ; "// - What naming pattern to follow"
  ; "// - How to integrate with existing code"
  ; "// - What tests to update"
  ; "//"
  ; "// Quick reference (details in BODY subsection comments):"
  ; ("// - Adding [Feature Type 1]: See BODY " ++ dq ++ "[Subsection Name]" ++ dq ++ " extension point")%string
  ; ("// - Adding [Feature Type 2]: See BODY " ++ dq ++ "[Another Subsection]" ++ dq ++ " extension point")%string
  ; ("// - Adding helpers: See BODY " ++ dq ++ "Helpers/Utilities" ++ dq ++ " section organization")%string
  ; "//"
  ; "// ────────────────────────────────────────────────────────────────"
  ; "// Performance Considerations"
  ; "// ────────────────────────────────────────────────────────────────"
  ; "// For Performance Considerations section explanation, see: standards/code/4-block/sections/closing/CWS-SECTION-CLOSING-008-performance-considerations.md"
  ; "//"
  ; "// See SETUP section above for performance characteristics:"
  ; "// - Constants: Performance notes on configuration values (memory per operation, etc.)"
  ; "// - Types: Memory usage and complexity analysis for data structures"
  ; "//"
  ; "// See BODY function docstrings above for operation-specific performance notes."
  ; "//"
  ; "// Quick summary (details in SETUP/BODY above):"
  ; "// - [Most expensive operation]: [Brief cost summary - see BODY docstring for details]"
  ; "// - [Memory characteristics]: [Brief summary - see SETUP types for details]"
  ; "// - Key optimization: [1-2 sentence tip]"
  ; "//"
  ; "// ────────────────────────────────────────────────────────────────"
  ; "// Troubleshooting Guide"
  ; "// ────────────────────────────────────────────────────────────────"
  ; "// For Troubleshooting Guide section explanation, see: standards/code/4-block/sections/closing/CWS-SECTION-CLOSING-009-troubleshooting-guide.md"
  ; "//"
  ; "// See BODY function docstrings above for operation-specific troubleshooting."
  ; ("// Functions that commonly have issues include " ++ dq ++ "Troubleshooting" ++ dq ++ " sections in")%string
  ; "// their docstrings with problem/check/solution patterns."
  ].

(** Lines 1051 to 1100. *)
Definition lines_1051_1100 : list string :=
  [ "//"
  ; "// Quick reference (details in BODY function docstrings above):"
  ; "// - [Common Problem 1]: See [FunctionName] docstring troubleshooting section"
  ; "// - [Common Problem 2]: See [AnotherFunction] docstring troubleshooting section"
  ; "//   - Expected: [If this is normal behavior]"
  ; "//   - Note: [Design decision explanation]"
  ; "//"
  ; "// Problem: [Common problem 5]"
  ; "//   - Cause: [Root cause]"
  ; "//   - Solution: [How to fix]"
  ; "//   - Note: [Additional context]"
  ; "//"
  ; "// ────────────────────────────────────────────────────────────────"
  ; "// Related Components & Dependencies"
  ; "// ────────────────────────────────────────────────────────────────"
  ; "// For Related Components section explanation, see: standards/code/4-block/sections/closing/CWS-SECTION-CLOSING-010-related-components.md"
  ; "//"
  ; ("// See METADATA " ++ dq ++ "Dependencies" ++ dq ++ " section above for complete dependency information:")%string
  ; "// - Dependencies (What This Needs): Standard Library, External, Internal"
  ; "// - Dependents (What Uses This): Commands, Libraries, Tools that depend on this"
  ; "// - Integration Points: How other systems connect and interact"
  ; "//"
  ; "// Quick summary (details in METADATA Dependencies section above):"
  ; "// - Key dependencies: [1-2 most critical dependencies]"
  ; "// - Primary consumers: [Who uses this most]"
  ; "//"
  ; "// Parallel Implementation (if applicable):"
  ; "//   - [Language 1] version: [path to parallel implementation]"
  ; "//   - [Language 2] version: [path to this or related implementation]"
  ; "//   - Shared [format/protocol/philosophy]: [What's consistent across implementations]"
  ; "//"
  ; "// ────────────────────────────────────────────────────────────────"
  ; "// Future Expansions & Roadmap"
  ; "// ────────────────────────────────────────────────────────────────"
  ; "// For Future Expansions section explanation, see: standards/code/4-block/sections/closing/CWS-SECTION-CLOSING-011-future-expansions.md"
  ; "//"
  ; "// Planned Features:"
  ; "//   ✓ [Completed feature] - COMPLETED"
  ; "//   ✓ [Another completed feature] - COMPLETED"
  ; "//   ⏳ [Planned feature 1]"
  ; "//   ⏳ [Planned feature 2]"
  ; "//   ⏳ [Planned feature 3]"
  ; "//   ⏳ [Planned feature 4]"
  ; "//"
  ; "// Research Areas:"
  ; "//   - [Research direction 1]"
  ; "//   - [Research direction 2]"
  ; "//   - [Research direction 3]"
  ; "//   - [Research direction 4]"
  ; "//   - [Research direction 5]"
  ].

(** Lines 1101 to 1150. *)
Definition lines_1101_1150 : list string :=
  [ "//"
  ; "// Integration Targets:"
  ; "//   - [System/language to integrate with]"
  ; "//   - [Another integration target]"
  ; "//   - [Cross-system correlation or bridging]"
  ; "//   - [Centralized or distributed capability]"
  ; "//   - [Monitoring or analysis system]"
  ; "//   - [Performance or profiling integration]"
  ; "//"
  ; "// Known Limitations to Address:"
  ; "//   - [Limitation 1 - description]"
  ; "//   - [Limitation 2 - description]"
  ; "//   - [Limitation 3 - description]"
  ; "//   - [Limitation 4 - description]"
  ; "//   - [Limitation 5 - description]"
  ; "//   - [Limitation 6 - description]"
  ; "//"
  ; "// Version History:"
  ; "//"
  ; ("// See METADATA " ++ dq ++ "Authorship & Lineage" ++ dq ++ " section above for brief version changelog.")%string
  ; "// Comprehensive version history with full context below:"
  ; "//"
  ; "//   [X.Y.Z] ([Date]) - [Version description]"
  ; "//         - [Major feature or change]"
  ; "//         - [Another feature or change]"
  ; "//         - [Another feature or change]"
  ; "//         - [Design decision or principle established]"
  ; "//"
  ; "// ────────────────────────────────────────────────────────────────"
  ; "// Closing Note"
  ; "// ────────────────────────────────────────────────────────────────"
  ; "// For Closing Note section explanation, see: standards/code/4-block/sections/closing/CWS-SECTION-CLOSING-012-closing-note.md"
  ; "//"
  ; "// This executable is [architectural role - RAILS/LADDER/BATON description]."
  ; "// [Explain its place in the ecosystem and what depends on it]."
  ; "//"
  ; "// Modify thoughtfully - changes here affect [scope of impact]. [Any critical"
  ; "// design guarantees that must be maintained]."
  ; "//"
  ; "// For questions, issues, or contributions:"
  ; "//   - Review the modification policy above"
  ; "//   - Follow the 4-block structure pattern"
  ; "//   - Test thoroughly before committing (gcc -Wall -Wextra, valgrind)"
  ; "//   - Document all changes comprehensively (What/Why/How pattern)"
  ; "//   - Run static analysis (clang --analyze) before committing"
  ; "//"
  ; ("// " ++ dq ++ "[Relevant Scripture verse]" ++ dq ++ " - [Reference]")%string
  ; "//"
  ; "// ────────────────────────────────────────────────────────────────"
  ; "// Quick Reference: Usage Examples"
  ].

(** Lines 1151 to 1194. *)
Definition lines_1151_1194 : list string :=
  [ "// ────────────────────────────────────────────────────────────────"
  ; "// For Quick Reference section explanation, see: standards/code/4-block/sections/closing/CWS-SECTION-CLOSING-013-quick-reference.md"
  ; "//"
  ; "// Basic Setup:"
  ; "//"
  ; ("//     #include " ++ dq ++ "[component].h" ++ dq)%string
  ; "//"
  ; "//     int main(int argc, char* argv[]) {"
  ; "//         [Component]* component = [component]_create();"
  ; "//         // ... use component ..."
  ; "//         [component]_destroy(component);"
  ; "//         return 0;"
  ; "//     }"
  ; "//"
  ; "// Error Handling Pattern:"
  ; "//"
  ; "//     int result = [function]([params], &output);"
  ; "//     if (result != 0) {"
  ; ("//         fprintf(stderr, " ++ dq ++ "Error: %s\n" ++ dq ++ ", [component]_error_string(result));")%string
  ; "//         return result;"
  ; "//     }"
  ; "//"
  ; "// Resource Management (RAII-style):"
  ; "//"
  ; "//     [Resource]* res = [resource]_acquire();"
  ; "//     if (res == NULL) goto cleanup;"
  ; "//     // ... use resource ..."
  ; "//     result = 0;"
  ; "//     cleanup:"
  ; "//         [resource]_release(res);"
  ; "//         return result;"
  ; "//"
  ; "// Health Tracking Integration:"
  ; "//"
  ; "//     if ([operation]_succeeded) {"
  ; ("//         logger_success(component_logger, " ++ dq ++ "[operation] complete" ++ dq ++ ", +10);")%string
  ; "//     } else {"
  ; ("//         logger_failure(component_logger, " ++ dq ++ "[operation] failed" ++ dq ++ ", " ++ dq ++ "reason" ++ dq ++ ", -10);")%string
  ; "//     }"
  ; "//"
  ; "// ============================================================================"
  ; "// END CLOSING"
  ; "// ============================================================================"
  ; EmptyString
  ].

(** The whole file, line by line. *)
Definition text : list string :=
  (lines_0001_0050
   ++ lines_0051_0100
   ++ lines_0101_0150
   ++ lines_0151_0200
   ++ lines_0201_0250
   ++ lines_0251_0300
   ++ lines_0301_0350
   ++ lines_0351_0400
   ++ lines_0401_0450
   ++ lines_0451_0500
   ++ lines_0501_0550
   ++ lines_0551_0600
   ++ lines_0601_0650
   ++ lines_0651_0700
   ++ lines_0701_0750
   ++ lines_0751_0800
   ++ lines_0801_0850
   ++ lines_0851_0900
   ++ lines_0901_0950
   ++ lines_0951_1000
   ++ lines_1001_1050
   ++ lines_1051_1100
   ++ lines_1101_1150
   ++ lines_1151_1194)%list.

Definition file : template :=
  {| path := "src/skills/create-from-template/references/code-templates/c/CODE-C-001-C-source.c";
     lines := text |}.

(** Lines 838 to 870:
    [int main(int argc, char* argv[]) { ... return 0; }].
    The six numbered steps between the braces (lines 839 to 868) are line
    comments; the one statement is [return 0;] on line 869. *)
Definition main (argc : Z) (argv : list string) : Exec.exec Z :=
  Exec.ret 0%Z.

End CSource.

(* ------------------------------------------------------------------ *)
(** ** The C header template, [c-header.h] *)

Module CHeader.

(** Lines 1 to 50. *)
Definition lines_0001_0050 : list string :=
  [ "// ═══════════════════════════════════════════════════════════════════════════"
  ; "// TEMPLATE: C Header File (4-Block Structure)"
  ; "// Key: LANG-TEMPLATE-010"
  ; "// ═══════════════════════════════════════════════════════════════════════════"
  ; "//"
  ; "// DEPENDENCY CLASSIFICATION: [PURE/DEPENDED] ([deps if DEPENDED])"
  ; "//   - PURE: Standard library only - no internal project dependencies"
  ; "//   - DEPENDED: Needs internal headers - list them: (needs: header1.h, header2.h)"
  ; "//"
  ; "// This is a TEMPLATE file - copy and modify for new C header files."
  ; "// Replace all [bracketed] placeholders with actual content."
  ; "// Rename to appropriate name (e.g., module.h, types.h)."
  ; "//"
  ; "// Derived from: templates/code/c/CODE-C-002-C-header.h (root template)"
  ; "// See: standards/code/4-block/ for complete documentation"
  ; "//"
  ; "// Compiler-Specific Adaptations:"
  ; "//   - C interface declarations for compiler backend (codegen, runtime)"
  ; "//   - Integration with CPI-SI health scoring types"
  ; "//   - Memory management conventions for compiler infrastructure"
  ; "//"
  ; "// ═══════════════════════════════════════════════════════════════════════════"
  ; EmptyString
  ; "#ifndef [HEADER_GUARD_NAME]_H"
  ; "#define [HEADER_GUARD_NAME]_H"
  ; EmptyString
  ; "// [brief description of what this header declares]."
  ; "//"
  ; "// [Library Name] Library - CPI-SI [Project/System Name]"
  ; "//"
  ; "// For METADATA structure explanation, see: standards/code/4-block/CWS-STD-004-CODE-metadata-block.md"
  ; "//"
  ; "// # Biblical Foundation"
  ; "//"
  ; "// Scripture: [Relevant verse grounding this library's purpose]"
  ; "//"
  ; "// Principle: [Kingdom principle this library demonstrates]"
  ; "//"
  ; "// Anchor: [Supporting verse reinforcing the principle]"
  ; "//"
  ; "// # CPI-SI Identity"
  ; "//"
  ; "// Component Type: [Ladder/Baton/Rails - see CWS-STD-004 for explanations]"
  ; "//"
  ; "// Role: [Specific responsibility in system architecture]"
  ; "//"
  ; "// Paradigm: CPI-SI framework component"
  ; "//"
  ; "// # Authorship & Lineage"
  ; "//"
  ].

(** Lines 51 to 100. *)
Definition lines_0051_0100 : list string :=
  [ "//   - Architect: [Who designed the approach and requirements]"
  ; "//   - Implementation: [Who wrote the code and verified it works]"
  ; "//   - Created: [YYYY-MM-DD]"
  ; "//   - Version: [MAJOR.MINOR.PATCH]"
  ; "//   - Modified: [YYYY-MM-DD - what changed]"
  ; "//"
  ; "// Version History:"
  ; "//"
  ; "//   - [X.Y.Z] ([YYYY-MM-DD]) - [Brief description of changes]"
  ; "//   - [X.Y.Z] ([YYYY-MM-DD]) - [Brief description of changes]"
  ; "//"
  ; "// # Purpose & Function"
  ; "//"
  ; "// Purpose: [What problem does this library solve?]"
  ; "//"
  ; "// Core Design: [Architectural pattern or paradigm]"
  ; "//"
  ; "// Key Features:"
  ; "//"
  ; "//   - [What it provides - major capabilities]"
  ; "//   - [What it enables - what others can build with this]"
  ; "//   - [What problems it solves - specific use cases]"
  ; "//   - [Additional capabilities]"
  ; "//"
  ; "// Philosophy: [Guiding principle for how this library works]"
  ; "//"
  ; "// # Blocking Status"
  ; "//"
  ; "// [Blocking/Non-blocking]: [Brief explanation]"
  ; "//"
  ; "// Mitigation: [How blocking/failures handled]"
  ; "//"
  ; "// # Usage & Integration"
  ; "//"
  ; "// Import:"
  ; "//"
  ; ("//	import " ++ dq ++ "[module-path]/[package-name]" ++ dq)%string
  ; "//"
  ; "// Integration Pattern:"
  ; "//"
  ; "//  1. [Initial setup step]"
  ; "//  2. [Configuration step if needed]"
  ; "//  3. [Typical usage workflow]"
  ; "//  4. [Cleanup if needed]"
  ; "//"
  ; "// Public API (in typical usage order):"
  ; "//"
  ; "//	[Category 1] ([purpose]):"
  ; "//	  [FunctionName](params) returns"
  ; "//	  [AnotherFunction](params) returns"
  ].

(** Lines 101 to 150. *)
Definition lines_0101_0150 : list string :=
  [ "//"
  ; "//	[Category 2] ([purpose]):"
  ; "//	  [FunctionName](params) returns"
  ; "//"
  ; "// # Dependencies"
  ; "//"
  ; "// What This Needs:"
  ; "//"
  ; "//   - Standard Library: [list standard packages]"
  ; "//   - External: [None | list external packages with versions]"
  ; "//   - Internal: [project packages this depends on]"
  ; "//"
  ; "// Dependency Safety: [For Rails components - trace imports to stdlib/external only."
  ; ("// Include this line to signal " ++ dq ++ "dependencies verified safe." ++ dq ++ " Omit for non-Rails.]")%string
  ; "//"
  ; "// What Uses This:"
  ; "//"
  ; "//   - Commands: [list commands]"
  ; "//   - Libraries: [list libraries]"
  ; "//   - Tools: [list tools]"
  ; "//"
  ; "// Integration Points:"
  ; "//"
  ; "//   - [How other systems connect - Rails/Ladder/Baton mechanism]"
  ; "//   - [Cross-component interactions]"
  ; "//   - [Data flow or protocol integration]"
  ; "//"
  ; "// # Health Scoring"
  ; "//"
  ; "// System: [Base100 with 1-point granular scale from -100 to +100]"
  ; "//"
  ; "// States: [Granted (>+50), Deferred (±50), Denied (<-50)]"
  ; "//"
  ; "// [Operation Category]:"
  ; "//"
  ; "//   - [Specific operation]: ±X points"
  ; "//   - [Another operation]: ±Y points"
  ; "//"
  ; "// Cascade Multipliers: [If applicable - describe categories and multipliers]"
  ; "//"
  ; "//   - [Category]: [X]x ([brief rationale])"
  ; "//"
  ; "// See: [Reference to detailed health scoring documentation]"
  ; "//"
  ; "// Note: Scores reflect TRUE impact. Health scorer normalizes to -100 to +100 scale."
  ; "//"
  ; "// METADATA Omission Guide:"
  ; "//   - Dependency Safety: Include for Rails (signals verified), omit for Ladder/Baton"
  ; "//   - Cascade Multipliers: Include if operations cascade differently, omit if uniform"
  ; "//   - States: Include if component makes state decisions, omit if pure pass-through"
  ].

(** Lines 151 to 200. *)
Definition lines_0151_0200 : list string :=
  [ "//   - Health Scoring Variations:"
  ; "//       * Config Provider: Provides health config, doesn't track own (use brief note)"
  ; "//       * Health Tracker: Full scoring with System/States/Operations"
  ; "//       * Pass-through: No health impact (omit or brief note)"
  ; "//   - Unlike SETUP (all sections required), METADATA omission signals component characteristics"
  ; "//"
  ; "// Note: C headers declare interfaces, not implementations. Function bodies"
  ; "// belong in corresponding .c source files (see CODE-C-001 template)."
  ; EmptyString
  ; "// ============================================================================"
  ; "// END METADATA"
  ; "// ============================================================================"
  ; EmptyString
  ; "// ============================================================================"
  ; "// SETUP"
  ; "// ============================================================================"
  ; "//"
  ; "// For SETUP structure explanation, see: standards/code/4-block/CWS-STD-006-CODE-setup-block.md"
  ; "//"
  ; "// Section order: Includes → Defines → Type Definitions → Function Prototypes → Extern Declarations"
  ; "// This flows: dependencies → constants → data model → interface → shared state"
  ; "//"
  ; "// Why this order: Headers declare interfaces for other files to use. Start with what"
  ; "// this header needs (includes), then constants, types, and finally the functions"
  ; "// and variables that consumers will access."
  ; "//"
  ; "// IMPORTANT: All sections MUST be present, even if empty or reserved."
  ; "// A lean section comment is better than absence. Why:"
  ; "//   - Consistent structure across all files (navigation)"
  ; "//   - Clear extension points (where to add when needed)"
  ; "//   - Intentional vs forgotten (a reserved section is deliberate)"
  ; "//"
  ; "// For empty sections, use: // [Reserved: Brief reason why not needed]"
  ; EmptyString
  ; "// ────────────────────────────────────────────────────────────────"
  ; "// Includes"
  ; "// ────────────────────────────────────────────────────────────────"
  ; "//"
  ; "// Headers this component needs. Organized by source - standard library"
  ; "// provides C's built-in capabilities, project headers provide internal"
  ; "// functionality. Each include commented with purpose, not just name."
  ; "//"
  ; "// See: standards/code/4-block/sections/setup/CWS-SECTION-SETUP-001-imports.md"
  ; EmptyString
  ; "//--- Standard Library ---"
  ; "// Foundation headers providing C's built-in capabilities."
  ; "// Use angle brackets for system headers."
  ; EmptyString
  ; "// #include <stddef.h>     // size_t, NULL, offsetof"
  ; "// #include <stdint.h>     // Fixed-width integer types (int32_t, uint64_t, etc.)"
  ].

(** Lines 201 to 250. *)
Definition lines_0201_0250 : list string :=
  [ "// #include <stdbool.h>    // bool, true, false (C99+)"
  ; "// #include <stdio.h>      // FILE*, printf, fprintf (if needed in declarations)"
  ; EmptyString
  ; "//--- Project Headers ---"
  ; "// Internal headers showing architectural dependencies."
  ; "// Use quotes for project headers."
  ; EmptyString
  ; ("// #include " ++ dq ++ "[header].h" ++ dq ++ "       // [Purpose within project]")%string
  ; ("// #include " ++ dq ++ "../[path].h" ++ dq ++ "      // [Shared component purpose]")%string
  ; EmptyString
  ; "//--- External Libraries ---"
  ; "// Third-party dependencies (use sparingly - each adds risk)."
  ; "// Why external: [Justify what stdlib lacks that requires this dependency]"
  ; "//"
  ; "// [Reserved: Currently none - foundational component uses standard library only]"
  ; EmptyString
  ; "// #include <[external-lib].h>  // [Justification for external dependency]"
  ; EmptyString
  ; "// ────────────────────────────────────────────────────────────────"
  ; "// Defines"
  ; "// ────────────────────────────────────────────────────────────────"
  ; "//"
  ; "// Preprocessor constants and macros. Magic numbers given meaningful names,"
  ; "// configuration values documented with reasoning. Defines prevent bugs"
  ; "// from typos and make intent clear."
  ; "//"
  ; "// See: standards/code/4-block/sections/setup/CWS-SECTION-SETUP-002-constants.md"
  ; EmptyString
  ; "//--- [Category Name] Constants ---"
  ; "// [Brief explanation of this group and their purpose]"
  ; EmptyString
  ; "// #define [CONSTANT_NAME] [value]  // [Purpose and reasoning]"
  ; "// #define [ANOTHER_CONST] [value]  // [Inline context]"
  ; EmptyString
  ; "//--- Defaults ---"
  ; "// Default values for optional configuration."
  ; EmptyString
  ; "// #define DEFAULT_[THING] [value]  // Used when [thing] not configured"
  ; EmptyString
  ; "//--- Macros ---"
  ; "// Function-like macros (use sparingly - prefer inline functions when possible)"
  ; EmptyString
  ; "// #define [MACRO_NAME](x) ((x) * 2)  // [Purpose - wrap args in parens]"
  ; EmptyString
  ; "// ────────────────────────────────────────────────────────────────"
  ; "// Type Definitions"
  ; "// ────────────────────────────────────────────────────────────────"
  ; "//"
  ; "// Data structures organized bottom-up: simple building blocks first,"
  ; "// then composed structures. This organization reveals dependencies."
  ].

(** Lines 251 to 300. *)
Definition lines_0251_0300 : list string :=
  [ "// Use typedef for cleaner type names."
  ; "//"
  ; "// See: standards/code/4-block/sections/setup/CWS-SECTION-SETUP-004-types.md"
  ; EmptyString
  ; "//--- Enumerations ---"
  ; "// Named constants for discrete values."
  ; EmptyString
  ; "// // [EnumName] represents [what these values mean]."
  ; "// //"
  ; "// // Values:"
  ; "// //   - [VALUE_NAME]: [meaning and when used]"
  ; "// //   - [VALUE_NAME]: [meaning and when used]"
  ; "// typedef enum {"
  ; "//     [ENUM_PREFIX]_[VALUE1],  // [Inline explanation]"
  ; "//     [ENUM_PREFIX]_[VALUE2],  // [Inline explanation]"
  ; "//     [ENUM_PREFIX]_COUNT      // Sentinel for array sizing"
  ; "// } [EnumName];"
  ; EmptyString
  ; "//--- Building Blocks ---"
  ; "// Simple foundational types used throughout this component."
  ; "// These are the atoms - other types compose from these."
  ; EmptyString
  ; "// // [TypeName] represents [what this models]."
  ; "// //"
  ; "// // [2-4 sentences: what it represents, when used, key constraints]"
  ; "// //"
  ; "// // Fields:"
  ; "// //   - [field_name]: [purpose and meaning]"
  ; "// //   - [field_name]: [purpose, units if applicable, constraints]"
  ; "// //"
  ; "// // Example:"
  ; "// //   [TypeName] t = { .field1 = value1, .field2 = value2 };"
  ; "// typedef struct {"
  ; "//     [type] [field_name];  // [Inline explanation]"
  ; "//     [type] [field_name];  // [Inline explanation]"
  ; "// } [TypeName];"
  ; EmptyString
  ; "//--- Composed Types ---"
  ; "// Complex types built from building blocks above."
  ; "// Document the composition relationship explicitly."
  ; EmptyString
  ; "// // [ComposedType] combines [building blocks] to represent [concept]."
  ; "// //"
  ; "// // [Explain relationships: why these pieces go together]"
  ; "// //"
  ; "// // Fields:"
  ; "// //   - [field_name]: [purpose]"
  ; "// //   - [block_field]: Uses [BuildingBlock] for [reason]"
  ; "// typedef struct {"
  ; "//     [type] [field_name];         // [Purpose]"
  ].

(** Lines 301 to 350. *)
Definition lines_0301_0350 : list string :=
  [ "//     [BuildingBlock] block_field; // Composition from above"
  ; "// } [ComposedType];"
  ; EmptyString
  ; "//--- Configuration Types ---"
  ; "// Options and settings passed to functions."
  ; "// Document default values and valid ranges."
  ; EmptyString
  ; "// // [Config] holds configuration options for [component]."
  ; "// //"
  ; "// // Fields:"
  ; "// //   - [field]: [purpose] (default: [value])"
  ; "// typedef struct {"
  ; "//     [type] [field];  // [Purpose] (default: [zero value behavior])"
  ; "// } [Config];"
  ; EmptyString
  ; "//--- Opaque Types ---"
  ; "// Forward declarations for types whose internals are hidden."
  ; "// Implementation in .c file, consumers use pointers only."
  ; EmptyString
  ; "// // [OpaqueType] - opaque handle (internals in .c file)"
  ; "// typedef struct [OpaqueType] [OpaqueType];"
  ; EmptyString
  ; "//--- Error Codes ---"
  ; "// Return codes for error handling (C doesn't have exceptions)."
  ; EmptyString
  ; "// // [ErrorCode] represents error conditions from [component]."
  ; "// typedef enum {"
  ; "//     [PREFIX]_OK = 0,           // Success"
  ; "//     [PREFIX]_ERR_INVALID,      // Invalid input"
  ; "//     [PREFIX]_ERR_NOMEM,        // Memory allocation failed"
  ; "//     [PREFIX]_ERR_IO,           // I/O operation failed"
  ; "// } [ErrorCode];"
  ; EmptyString
  ; "// ────────────────────────────────────────────────────────────────"
  ; "// Function Prototypes"
  ; "// ────────────────────────────────────────────────────────────────"
  ; "//"
  ; "// Declarations for functions implemented in the corresponding .c file."
  ; "// Headers declare the interface - what functions exist and their signatures."
  ; "// Implementations go in CODE-C-001 source file."
  ; "//"
  ; "// See: standards/code/4-block/sections/setup/CWS-SECTION-SETUP-005-type-methods.md"
  ; "//"
  ; "// Note: C doesn't have methods. Functions that operate on types take"
  ; "// the type as a parameter (usually pointer for modification)."
  ; EmptyString
  ; "//--- Lifecycle Functions ---"
  ; "// Create, initialize, and destroy instances."
  ; EmptyString
  ; "// // [type]_create allocates and initializes a new [TypeName]."
  ].

(** Lines 351 to 400. *)
Definition lines_0351_0400 : list string :=
  [ "// //"
  ; "// // Returns: Pointer to new instance, or NULL on failure."
  ; "// //          Caller must call [type]_destroy when done."
  ; "// [TypeName]* [type]_create(void);"
  ; EmptyString
  ; "// // [type]_init initializes an existing [TypeName] (stack-allocated)."
  ; "// //"
  ; "// // Parameters:"
  ; "// //   self: Pointer to uninitialized instance"
  ; "// //"
  ; "// // Returns: 0 on success, error code on failure."
  ; "// int [type]_init([TypeName]* self);"
  ; EmptyString
  ; "// // [type]_destroy frees resources associated with [TypeName]."
  ; "// //"
  ; "// // Parameters:"
  ; "// //   self: Pointer to instance (NULL-safe)"
  ; "// void [type]_destroy([TypeName]* self);"
  ; EmptyString
  ; "//--- Accessor Functions ---"
  ; "// Get and set values (when encapsulation needed)."
  ; EmptyString
  ; "// // [type]_get_[field] returns the [field] value."
  ; "// [FieldType] [type]_get_[field](const [TypeName]* self);"
  ; EmptyString
  ; "// // [type]_set_[field] updates the [field] value."
  ; "// void [type]_set_[field]([TypeName]* self, [FieldType] value);"
  ; EmptyString
  ; "//--- Conversion Functions ---"
  ; "// Transform between types or formats."
  ; EmptyString
  ; "// // [type]_to_string converts [TypeName] to string representation."
  ; "// //"
  ; "// // Parameters:"
  ; "// //   self: Instance to convert"
  ; "// //   buf: Output buffer"
  ; "// //   buf_size: Size of output buffer"
  ; "// //"
  ; "// // Returns: Number of characters written (excluding null terminator),"
  ; "// //          or negative error code."
  ; "// int [type]_to_string(const [TypeName]* self, char* buf, size_t buf_size);"
  ; EmptyString
  ; "// ────────────────────────────────────────────────────────────────"
  ; "// Extern Declarations"
  ; "// ────────────────────────────────────────────────────────────────"
  ; "//"
  ; "// Global variables declared here, defined in .c file. Use sparingly -"
  ; "// prefer constants (#define) for fixed values and function parameters"
  ; "// for dynamic behavior. Extern variables are typically: global state,"
  ; "// shared configuration, or cross-file data."
  ].

(** Lines 401 to 450. *)
Definition lines_0401_0450 : list string :=
  [ "//"
  ; "// See: standards/code/4-block/sections/setup/CWS-SECTION-SETUP-003-variables.md"
  ; EmptyString
  ; "//--- Global State ---"
  ; "// Variables shared across multiple compilation units."
  ; "// Declared here with extern, defined in .c file."
  ; EmptyString
  ; "// // [g_variable_name] [what it holds and purpose]."
  ; "// //"
  ; "// // Defined in: [source_file].c"
  ; "// // Thread-safety: [safe/unsafe - describe synchronization if any]"
  ; "// extern [type] [g_variable_name];"
  ; EmptyString
  ; "//--- Configuration State ---"
  ; "// Runtime-modifiable settings. Document default values and valid ranges."
  ; EmptyString
  ; "// // [g_config_var] controls [behavior]."
  ; "// //"
  ; "// // Default: [value]. Valid range: [min] to [max]."
  ; "// // Modified by: [what changes this - functions, initialization]"
  ; "// extern [type] [g_config_var];"
  ; EmptyString
  ; "//--- Callback Types ---"
  ; "// Function pointer types for callbacks and hooks."
  ; EmptyString
  ; "// // [CallbackName] is called when [event/condition]."
  ; "// //"
  ; "// // Parameters:"
  ; "// //   [param]: [purpose]"
  ; "// //"
  ; "// // Returns: [what return value means]"
  ; ("// typedef [return_type] (" ++ "*[CallbackName])([parameters]);")%string
  ; EmptyString
  ; "// [Reserved: Additional extern declarations as component develops]"
  ; EmptyString
  ; "// ============================================================================"
  ; "// END SETUP"
  ; "// ============================================================================"
  ; EmptyString
  ; "// ============================================================================"
  ; "// BODY"
  ; "// ============================================================================"
  ; "//"
  ; "// For BODY structure explanation, see: standards/code/4-block/CWS-STD-007-CODE-body-block.md"
  ; "//"
  ; "// NOTE: C headers declare interfaces, they do NOT contain implementations."
  ; "// All function bodies belong in the corresponding .c source file."
  ; "// This BODY section documents the declared interface structure."
  ; EmptyString
  ; "// ────────────────────────────────────────────────────────────────"
  ].

(** Lines 451 to 500. *)
Definition lines_0451_0500 : list string :=
  [ "// Organizational Chart - Declared Interface Structure"
  ; "// ────────────────────────────────────────────────────────────────"
  ; "// Maps the interface this header exposes. Provides navigation for both"
  ; "// consumers (what's available to use) and implementers (what to implement)."
  ; "//"
  ; "// See: standards/code/4-block/sections/body/CWS-SECTION-BODY-001-organizational-chart.md"
  ; "//"
  ; "// Declared Interface (by category):"
  ; "//"
  ; "//   Public APIs (Exported Functions)"
  ; "//   ├── [function_name]() → [brief purpose]"
  ; "//   ├── [function_name]() → [brief purpose]"
  ; "//   └── [function_name]() → [brief purpose]"
  ; "//"
  ; "//   Lifecycle Functions"
  ; "//   ├── [type]_create() → allocate and initialize"
  ; "//   ├── [type]_init() → initialize existing"
  ; "//   └── [type]_destroy() → cleanup resources"
  ; "//"
  ; "//   Accessors"
  ; "//   ├── [type]_get_[field]() → read value"
  ; "//   └── [type]_set_[field]() → write value"
  ; "//"
  ; "// Type Definitions:"
  ; "//   ├── [TypeName] → [brief description]"
  ; "//   ├── [EnumName] → [brief description]"
  ; "//   └── [ErrorCode] → [brief description]"
  ; "//"
  ; "// Implementation Location:"
  ; "//   All function implementations in: [source_file].c (see CODE-C-001)"
  ; "//"
  ; "// Declared Units:"
  ; "// - [X] types total"
  ; "// - [X] enums"
  ; "// - [X] function prototypes"
  ; "// - [X] extern variables"
  ; "//"
  ; "// See: standards/code/4-block/sections/body/CWS-SECTION-BODY-005-public-apis.md"
  ; EmptyString
  ; "// ────────────────────────────────────────────────────────────────"
  ; "// Helpers/Utilities - Internal Support Declarations"
  ; "// ────────────────────────────────────────────────────────────────"
  ; "// Foundation function declarations used internally by this component."
  ; "// Bottom rungs of the ladder - simple, focused, reusable utilities."
  ; "// Usually NOT exported (static in .c file), but declared here if needed"
  ; "// across multiple .c files in the same component."
  ; "//"
  ; "// See: standards/code/4-block/sections/body/CWS-SECTION-BODY-002-helpers.md"
  ; "//"
  ; "// Note: Most helpers are static in .c file and don't appear here."
  ].

(** Lines 501 to 550. *)
Definition lines_0501_0550 : list string :=
  [ "// Only declare helpers that need visibility across compilation units."
  ; "//"
  ; "// [Reserved: Internal helpers typically static in .c - add if cross-file needed]"
  ; EmptyString
  ; "// // [helper_name] [does what - internal use only]."
  ; "// //"
  ; "// // Parameters:"
  ; "// //   [param]: [purpose]"
  ; "// //"
  ; "// // Returns: [what's returned]"
  ; "// //"
  ; "// // Note: Internal helper - not part of public API."
  ; "// [return_type] [helper_name]([parameters]);"
  ; EmptyString
  ; "// ────────────────────────────────────────────────────────────────"
  ; "// Core Operations - Business Logic Declarations"
  ; "// ────────────────────────────────────────────────────────────────"
  ; "// Component-specific function declarations implementing primary purpose."
  ; "// Middle rungs of the ladder - the actual work gets done here."
  ; "// Organized by operational categories below."
  ; "//"
  ; "// See: standards/code/4-block/sections/body/CWS-SECTION-BODY-003-core-operations.md"
  ; "//"
  ; "// Implementation: All function bodies in corresponding .c file."
  ; EmptyString
  ; "// ────────────────────────────────────────────────────────────────"
  ; "// [Category 1 Name] - [Purpose]"
  ; "// ────────────────────────────────────────────────────────────────"
  ; "// What These Do:"
  ; "// [High-level description of this category of operations]"
  ; "//"
  ; "// Extension Point:"
  ; "// To add new [operation type], add declaration here following [naming pattern],"
  ; "// then implement in .c file."
  ; EmptyString
  ; "// // [function_name] [does what]."
  ; "// //"
  ; "// // Parameters:"
  ; "// //   [param]: [purpose]"
  ; "// //"
  ; "// // Returns: [what's returned]"
  ; "// //"
  ; "// // Health Impact:"
  ; "// //   Success: +X points"
  ; "// //   Failure: -X points"
  ; "// [return_type] [function_name]([parameters]);"
  ; EmptyString
  ; "// ────────────────────────────────────────────────────────────────"
  ; "// [Category 2 Name] - [Purpose]"
  ; "// ────────────────────────────────────────────────────────────────"
  ].

(** Lines 551 to 600. *)
Definition lines_0551_0600 : list string :=
  [ "// [Same documentation pattern as Category 1]"
  ; EmptyString
  ; "// [Reserved: Additional core operation declarations as component develops]"
  ; EmptyString
  ; "// ────────────────────────────────────────────────────────────────"
  ; "// Error Handling - Error Types and Recovery Declarations"
  ; "// ────────────────────────────────────────────────────────────────"
  ; "// Error handling declarations ensuring component handles failures gracefully."
  ; "// Documents error codes, error checking functions, and recovery patterns."
  ; "//"
  ; "// See: standards/code/4-block/sections/body/CWS-SECTION-BODY-004-error-handling.md"
  ; "//"
  ; "// Design Principle: [Blocking/Non-blocking] - [Brief explanation]"
  ; "//"
  ; ("// Error Codes: See SETUP " ++ dq ++ "Error Codes" ++ dq ++ " section for [ErrorCode] enum.")%string
  ; "//"
  ; "// Recovery Strategy:"
  ; "//   - [Error type 1]: [How handled]"
  ; "//   - [Error type 2]: [How handled]"
  ; EmptyString
  ; "// // [component]_get_error_string returns human-readable error description."
  ; "// //"
  ; "// // Parameters:"
  ; "// //   err: Error code from [ErrorCode] enum"
  ; "// //"
  ; "// // Returns: Static string describing the error (do not free)."
  ; "// const char* [component]_get_error_string([ErrorCode] err);"
  ; EmptyString
  ; "// // [component]_is_error checks if return value indicates error."
  ; "// //"
  ; "// // Parameters:"
  ; "// //   result: Return value to check"
  ; "// //"
  ; "// // Returns: true if result indicates error, false otherwise."
  ; "// bool [component]_is_error(int result);"
  ; EmptyString
  ; "// [Reserved: Additional error handling declarations as patterns emerge]"
  ; EmptyString
  ; "// ────────────────────────────────────────────────────────────────"
  ; "// Public APIs - Exported Interface Declarations"
  ; "// ────────────────────────────────────────────────────────────────"
  ; "// Exported function declarations defining component's public interface."
  ; "// Top rungs of the ladder - these are what consumers call."
  ; "// Simple by design - complexity lives in core operations."
  ; "//"
  ; "// See: standards/code/4-block/sections/body/CWS-SECTION-BODY-005-public-apis.md"
  ; "//"
  ; "// Organization: Group public APIs by purpose using category dividers."
  ; "// Common categories: Initialization, Creation, Operations, Health, Cleanup"
  ; EmptyString
  ].

(** Lines 601 to 650. *)
Definition lines_0601_0650 : list string :=
  [ "// ═══ [Category Name] ═══"
  ; EmptyString
  ; "// // [PublicFunctionName] [does what at high level]."
  ; "// //"
  ; "// // What It Does:"
  ; "// // [Detailed explanation of complete operation]"
  ; "// //"
  ; "// // Parameters:"
  ; "// //   [param]: [purpose]"
  ; "// //"
  ; "// // Returns: [what's returned]"
  ; "// //"
  ; "// // Health Impact:"
  ; "// //   Success: +X points"
  ; "// //   Failure: -X points"
  ; "// //"
  ; "// // Example:"
  ; "// //   [return_type] result = [PublicFunctionName](params);"
  ; "// //   if ([component]_is_error(result)) {"
  ; "// //       // handle error"
  ; "// //   }"
  ; "// [return_type] [PublicFunctionName]([parameters]);"
  ; EmptyString
  ; "// [Reserved: Additional public API declarations as component develops]"
  ; EmptyString
  ; "// ============================================================================"
  ; "// END BODY"
  ; "// ============================================================================"
  ; EmptyString
  ; "// ============================================================================"
  ; "// CLOSING"
  ; "// ============================================================================"
  ; "//"
  ; "// For CLOSING structure explanation, see: standards/code/4-block/CWS-STD-008-CODE-closing-block.md"
  ; "//"
  ; "// ────────────────────────────────────────────────────────────────"
  ; "// Code Validation: Header (Declaration Only)"
  ; "// ────────────────────────────────────────────────────────────────"
  ; "// For Code Validation section explanation, see: standards/code/4-block/sections/closing/CWS-SECTION-CLOSING-001-code-validation.md"
  ; "//"
  ; "// Header Validation:"
  ; "//   - Include the header without errors (self-contained)"
  ; "//   - No missing type definitions or forward declarations"
  ; "//   - No circular include dependencies"
  ; "//   - Include guards work correctly (no redefinition errors)"
  ; "//   - All function prototypes match implementations in .c file"
  ; "//"
  ; "// Build Verification:"
  ; "//   - gcc -fsyntax-only -Wall -Wextra [header].h (syntax check)"
  ; "//   - gcc -c -Wall -Wextra [source].c (compiles with header)"
  ].

(** Lines 651 to 700. *)
Definition lines_0651_0700 : list string :=
  [ "//   - clang -fsyntax-only -Wall -Wextra [header].h (alternative)"
  ; "//   - cppcheck --enable=all [header].h (static analysis)"
  ; "//"
  ; "// Self-Containment Test:"
  ; "//   // Create test file that only includes this header"
  ; ("//   #include " ++ dq ++ "[header].h" ++ dq)%string
  ; "//   int main(void) { return 0; }"
  ; "//   // Must compile without errors"
  ; "//"
  ; "// Integration Testing:"
  ; "//   - Test with actual consuming code"
  ; "//   - Verify declarations match implementations"
  ; "//   - Check ABI compatibility if shared library"
  ; "//   - valgrind --leak-check=full ./test (memory check)"
  ; "//"
  ; "// ────────────────────────────────────────────────────────────────"
  ; "// Code Execution: None (Header)"
  ; "// ────────────────────────────────────────────────────────────────"
  ; "// For Code Execution section explanation, see: standards/code/4-block/sections/closing/CWS-SECTION-CLOSING-002-code-execution.md"
  ; "//"
  ; "// This is a HEADER file - declarations only, no execution."
  ; "// All function implementations are in the corresponding .c file."
  ; "// Headers are included by other files, not executed directly."
  ; "//"
  ; ("// Usage: #include " ++ dq ++ "[header].h" ++ dq)%string
  ; "//"
  ; "// The header is included by source files, making all declared types,"
  ; "// functions, and constants available. No code executes at include time -"
  ; "// only declarations are processed by the preprocessor."
  ; "//"
  ; "// Example include and usage:"
  ; "//"
  ; ("//     #include " ++ dq ++ "[header].h" ++ dq)%string
  ; "//"
  ; "//     int main(void) {"
  ; "//         // Use types from header"
  ; "//         [TypeName] instance;"
  ; "//         [type]_init(&instance);"
  ; "//"
  ; "//         // Call functions declared in header"
  ; "//         int result = [PublicFunction](&instance, params);"
  ; "//         if ([component]_is_error(result)) {"
  ; ("//             fprintf(stderr, " ++ dq ++ "Error: %s\n" ++ dq ++ ", [component]_get_error_string(result));")%string
  ; "//             return 1;"
  ; "//         }"
  ; "//"
  ; "//         // Cleanup"
  ; "//         [type]_destroy(&instance);"
  ; "//         return 0;"
  ; "//     }"
  ].

(** Lines 701 to 750. *)
Definition lines_0701_0750 : list string :=
  [ "//"
  ; "// ────────────────────────────────────────────────────────────────"
  ; "// Code Cleanup: None (Header)"
  ; "// ────────────────────────────────────────────────────────────────"
  ; "// For Code Cleanup section explanation, see: standards/code/4-block/sections/closing/CWS-SECTION-CLOSING-003-code-cleanup.md"
  ; "//"
  ; "// Resource Management (documented for implementers):"
  ; "//   - [Resource type 1]: [How it's managed - malloc/free pattern]"
  ; "//   - [Resource type 2]: [Management strategy]"
  ; "//   - [Resource type 3]: [Cleanup approach]"
  ; "//"
  ; "// Ownership Convention:"
  ; "//   - Functions returning pointers: Caller owns, must free"
  ; "//   - Functions taking pointers: Caller retains ownership unless documented"
  ; "//   - _create() functions: Return owned pointer, use _destroy() to free"
  ; "//   - _init() functions: Initialize caller-owned memory, use _destroy() to cleanup"
  ; "//"
  ; "// Memory Management:"
  ; "//   - C requires manual memory management"
  ; "//   - All malloc() must have corresponding free()"
  ; "//   - Document ownership transfer in function comments"
  ; "//   - Use valgrind to verify no leaks"
  ; "//"
  ; "// Example cleanup pattern:"
  ; "//"
  ; "//     // Stack allocation (automatic cleanup)"
  ; "//     [TypeName] local;"
  ; "//     [type]_init(&local);"
  ; "//     // ... use local ..."
  ; "//     [type]_destroy(&local);  // Cleanup internal resources"
  ; "//"
  ; "//     // Heap allocation (manual cleanup)"
  ; "//     [TypeName]* ptr = [type]_create();"
  ; "//     // ... use ptr ..."
  ; "//     [type]_destroy(ptr);  // Frees ptr and internal resources"
  ; "//"
  ; "// ════════════════════════════════════════════════════════════════"
  ; "// FINAL DOCUMENTATION"
  ; "// ════════════════════════════════════════════════════════════════"
  ; "//"
  ; "// ────────────────────────────────────────────────────────────────"
  ; "// Library Overview & Integration Summary"
  ; "// ────────────────────────────────────────────────────────────────"
  ; "// For Library Overview section explanation, see: standards/code/4-block/sections/closing/CWS-SECTION-CLOSING-004-library-overview.md"
  ; "//"
  ; ("// Purpose: See METADATA " ++ dq ++ "Purpose & Function" ++ dq ++ " section above")%string
  ; "//"
  ; ("// Provides: See METADATA " ++ dq ++ "Key Features" ++ dq ++ " list above for comprehensive capabilities")%string
  ; "//"
  ; "// Quick summary (high-level only - details in METADATA):"
  ].

(** Lines 751 to 800. *)
Definition lines_0751_0800 : list string :=
  [ "//   - [1-2 sentence overview of what this library does]"
  ; "//   - [Feature 5]: [What it does]"
  ; "//"
  ; ("// Integration Pattern: See METADATA " ++ dq ++ "Usage & Integration" ++ dq ++ " section above for")%string
  ; "// complete step-by-step integration guide"
  ; "//"
  ; ("// Public API: See METADATA " ++ dq ++ "Usage & Integration" ++ dq ++ " section above for complete")%string
  ; "// public API list organized by category in typical usage order"
  ; "//"
  ; ("// Architecture: See METADATA " ++ dq ++ "CPI-SI Identity" ++ dq ++ " section above for complete")%string
  ; "// architectural role (Rails/Ladder/Baton) explanation"
  ; "//"
  ; "// ────────────────────────────────────────────────────────────────"
  ; "// Modification Policy"
  ; "// ────────────────────────────────────────────────────────────────"
  ; "// For Modification Policy section explanation, see: standards/code/4-block/sections/closing/CWS-SECTION-CLOSING-005-modification-policy.md"
  ; "//"
  ; "// Safe to Modify (Extension Points):"
  ; "//   ✅ Add new [functions/types/constants] (follow existing patterns)"
  ; "//   ✅ Add new [helper functions] in appropriate groups"
  ; "//   ✅ Extend [specific feature] (add more [specific thing])"
  ; "//   ✅ [Other safe modification]"
  ; "//   ✅ [Other safe modification]"
  ; "//"
  ; "// Modify with Extreme Care (Breaking Changes):"
  ; "//   ⚠️ Public API function signatures - breaks all calling code"
  ; "//   ⚠️ [Exported struct] fields - breaks code accessing fields directly"
  ; "//   ⚠️ [Critical system behavior] - affects all users"
  ; "//   ⚠️ [Data format/protocol] - breaks parsing tools"
  ; "//   ⚠️ [Core algorithm] - affects correctness"
  ; "//"
  ; "// NEVER Modify (Foundational Rails):"
  ; "//   ❌ 4-block structure (METADATA, SETUP, BODY, CLOSING)"
  ; "//   ❌ [Fundamental principle 1]"
  ; "//   ❌ [Fundamental principle 2]"
  ; "//   ❌ [Architectural pattern - Rails/etc]"
  ; "//   ❌ [Core design invariant]"
  ; "//"
  ; "// Validation After Modifications:"
  ; ("//   See " ++ dq ++ "Code Validation" ++ dq ++ " section in GROUP 1: CODING above for comprehensive")%string
  ; "//   testing requirements, build verification, and integration testing procedures."
  ; "//"
  ; "// ────────────────────────────────────────────────────────────────"
  ; "// Ladder and Baton Flow"
  ; "// ────────────────────────────────────────────────────────────────"
  ; "// For Ladder and Baton Flow section explanation, see: standards/code/4-block/sections/closing/CWS-SECTION-CLOSING-006-ladder-baton-flow.md"
  ; "//"
  ; ("// See BODY " ++ dq ++ "Organizational Chart - Internal Structure" ++ dq ++ " section above for")%string
  ; "// complete ladder structure (dependencies) and baton flow (execution paths)."
  ; "//"
  ].

(** Lines 801 to 850. *)
Definition lines_0801_0850 : list string :=
  [ "// The Organizational Chart in BODY provides the detailed map showing:"
  ; "// - All functions and their dependencies (ladder)"
  ; "// - Complete execution flow paths (baton)"
  ; "// - APU count (Available Processing Units)"
  ; "//"
  ; "// Quick architectural summary (details in BODY Organizational Chart):"
  ; "// - [X] public APIs orchestrate [Y] core operations using [Z] helpers"
  ; "// - Ladder: [Brief dependency summary]"
  ; "// - Baton: [Brief execution flow summary]"
  ; "//"
  ; "// ────────────────────────────────────────────────────────────────"
  ; "// Surgical Update Points (Extension Guide)"
  ; "// ────────────────────────────────────────────────────────────────"
  ; "// For Surgical Update Points section explanation, see: standards/code/4-block/sections/closing/CWS-SECTION-CLOSING-007-surgical-update-points.md"
  ; "//"
  ; ("// See BODY " ++ dq ++ "Core Operations" ++ dq ++ " subsection header comments above for detailed")%string
  ; ("// extension points. Each subsection includes " ++ dq ++ "Extension Point" ++ dq ++ " guidance showing:")%string
  ; "// - Where to add new functionality"
  ; "// - What naming pattern to follow"
  ; "// - How to integrate with existing code"
  ; "// - What tests to update"
  ; "//"
  ; "// Quick reference (details in BODY subsection comments):"
  ; ("// - Adding [Feature Type 1]: See BODY " ++ dq ++ "[Subsection Name]" ++ dq ++ " extension point")%string
  ; ("// - Adding [Feature Type 2]: See BODY " ++ dq ++ "[Another Subsection]" ++ dq ++ " extension point")%string
  ; ("// - Adding helpers: See BODY " ++ dq ++ "Helpers/Utilities" ++ dq ++ " section organization")%string
  ; "//"
  ; "// ────────────────────────────────────────────────────────────────"
  ; "// Performance Considerations"
  ; "// ────────────────────────────────────────────────────────────────"
  ; "// For Performance Considerations section explanation, see: standards/code/4-block/sections/closing/CWS-SECTION-CLOSING-008-performance-considerations.md"
  ; "//"
  ; "// See SETUP section above for performance characteristics:"
  ; "// - Constants: Performance notes on configuration values (memory per operation, etc.)"
  ; "// - Types: Memory usage and complexity analysis for data structures"
  ; "//"
  ; "// See BODY function docstrings above for operation-specific performance notes."
  ; "//"
  ; "// Quick summary (details in SETUP/BODY above):"
  ; "// - [Most expensive operation]: [Brief cost summary - see BODY docstring for details]"
  ; "// - [Memory characteristics]: [Brief summary - see SETUP types for details]"
  ; "// - Key optimization: [1-2 sentence tip]"
  ; "//"
  ; "// ────────────────────────────────────────────────────────────────"
  ; "// Troubleshooting Guide"
  ; "// ────────────────────────────────────────────────────────────────"
  ; "// For Troubleshooting Guide section explanation, see: standards/code/4-block/sections/closing/CWS-SECTION-CLOSING-009-troubleshooting-guide.md"
  ; "//"
  ; "// See BODY function docstrings above for operation-specific troubleshooting."
  ; ("// Functions that commonly have issues include " ++ dq ++ "Troubleshooting" ++ dq ++ " sections in")%string
  ].

(** Lines 851 to 900. *)
Definition lines_0851_0900 : list string :=
  [ "// their docstrings with problem/check/solution patterns."
  ; "//"
  ; "// Quick reference (details in BODY function docstrings above):"
  ; "// - [Common Problem 1]: See [FunctionName] docstring troubleshooting section"
  ; "// - [Common Problem 2]: See [AnotherFunction] docstring troubleshooting section"
  ; "//   - Expected: [If this is normal behavior]"
  ; "//   - Note: [Design decision explanation]"
  ; "//"
  ; "// Problem: [Common problem 5]"
  ; "//   - Cause: [Root cause]"
  ; "//   - Solution: [How to fix]"
  ; "//   - Note: [Additional context]"
  ; "//"
  ; "// ────────────────────────────────────────────────────────────────"
  ; "// Related Components & Dependencies"
  ; "// ────────────────────────────────────────────────────────────────"
  ; "// For Related Components section explanation, see: standards/code/4-block/sections/closing/CWS-SECTION-CLOSING-010-related-components.md"
  ; "//"
  ; ("// See METADATA " ++ dq ++ "Dependencies" ++ dq ++ " section above for complete dependency information:")%string
  ; "// - Dependencies (What This Needs): Standard Library, External, Internal"
  ; "// - Dependents (What Uses This): Commands, Libraries, Tools that depend on this"
  ; "// - Integration Points: How other systems connect and interact"
  ; "//"
  ; "// Quick summary (details in METADATA Dependencies section above):"
  ; "// - Key dependencies: [1-2 most critical dependencies]"
  ; "// - Primary consumers: [Who uses this most]"
  ; "//"
  ; "// Parallel Implementation (if applicable):"
  ; "//   - [Language 1] version: [path to parallel implementation]"
  ; "//   - [Language 2] version: [path to this or related implementation]"
  ; "//   - Shared [format/protocol/philosophy]: [What's consistent across implementations]"
  ; "//"
  ; "// ────────────────────────────────────────────────────────────────"
  ; "// Future Expansions & Roadmap"
  ; "// ────────────────────────────────────────────────────────────────"
  ; "// For Future Expansions section explanation, see: standards/code/4-block/sections/closing/CWS-SECTION-CLOSING-011-future-expansions.md"
  ; "//"
  ; "// Planned Features:"
  ; "//   ✓ [Completed feature] - COMPLETED"
  ; "//   ✓ [Another completed feature] - COMPLETED"
  ; "//   ⏳ [Planned feature 1]"
  ; "//   ⏳ [Planned feature 2]"
  ; "//   ⏳ [Planned feature 3]"
  ; "//   ⏳ [Planned feature 4]"
  ; "//"
  ; "// Research Areas:"
  ; "//   - [Research direction 1]"
  ; "//   - [Research direction 2]"
  ; "//   - [Research direction 3]"
  ; "//   - [Research direction 4]"
  ].

(** Lines 901 to 950. *)
Definition lines_0901_0950 : list string :=
  [ "//   - [Research direction 5]"
  ; "//"
  ; "// Integration Targets:"
  ; "//   - [System/language to integrate with]"
  ; "//   - [Another integration target]"
  ; "//   - [Cross-system correlation or bridging]"
  ; "//   - [Centralized or distributed capability]"
  ; "//   - [Monitoring or analysis system]"
  ; "//   - [Performance or profiling integration]"
  ; "//"
  ; "// Known Limitations to Address:"
  ; "//   - [Limitation 1 - description]"
  ; "//   - [Limitation 2 - description]"
  ; "//   - [Limitation 3 - description]"
  ; "//   - [Limitation 4 - description]"
  ; "//   - [Limitation 5 - description]"
  ; "//   - [Limitation 6 - description]"
  ; "//"
  ; "// Version History:"
  ; "//"
  ; ("// See METADATA " ++ dq ++ "Authorship & Lineage" ++ dq ++ " section above for brief version changelog.")%string
  ; "// Comprehensive version history with full context below:"
  ; "//"
  ; "//   [X.Y.Z] ([Date]) - [Version description]"
  ; "//         - [Major feature or change]"
  ; "//         - [Another feature or change]"
  ; "//         - [Another feature or change]"
  ; "//         - [Design decision or principle established]"
  ; "//"
  ; "// ────────────────────────────────────────────────────────────────"
  ; "// Closing Note"
  ; "// ────────────────────────────────────────────────────────────────"
  ; "// For Closing Note section explanation, see: standards/code/4-block/sections/closing/CWS-SECTION-CLOSING-012-closing-note.md"
  ; "//"
  ; "// This header is [architectural role - RAILS/LADDER/BATON description]."
  ; "// [Explain its place in the ecosystem and what depends on it]."
  ; "//"
  ; "// Modify thoughtfully - changes here affect [scope of impact]. Header changes"
  ; "// break ABI compatibility for all consumers."
  ; "//"
  ; "// For questions, issues, or contributions:"
  ; "//   - Review the modification policy above"
  ; "//   - Follow the 4-block structure pattern"
  ; "//   - Test thoroughly before committing:"
  ; "//     gcc -fsyntax-only -Wall -Wextra [header].h"
  ; "//     gcc -c -Wall -Wextra [source].c"
  ; "//     valgrind --leak-check=full ./test"
  ; "//   - Document all changes comprehensively (What/Why/How pattern)"
  ; "//   - Ensure include guards remain unique"
  ; "//"
  ].

(** Lines 951 to 989. *)
Definition lines_0951_0989 : list string :=
  [ ("// " ++ dq ++ "[Relevant Scripture verse]" ++ dq ++ " - [Reference]")%string
  ; "//"
  ; "// ────────────────────────────────────────────────────────────────"
  ; "// Quick Reference: Usage Examples"
  ; "// ────────────────────────────────────────────────────────────────"
  ; "// For Quick Reference section explanation, see: standards/code/4-block/sections/closing/CWS-SECTION-CLOSING-013-quick-reference.md"
  ; "//"
  ; "// Basic Include:"
  ; ("//   #include " ++ dq ++ "[header].h" ++ dq)%string
  ; "//"
  ; "// Type Declaration:"
  ; "//   [TypeName] instance;"
  ; "//   [type]_init(&instance);"
  ; "//   // ... use instance ..."
  ; "//   [type]_destroy(&instance);"
  ; "//"
  ; "// Heap Allocation:"
  ; "//   [TypeName]* ptr = [type]_create();"
  ; "//   if (ptr == NULL) { /* handle error */ }"
  ; "//   // ... use ptr ..."
  ; "//   [type]_destroy(ptr);"
  ; "//"
  ; "// Error Checking:"
  ; "//   int result = [function](params);"
  ; "//   if ([component]_is_error(result)) {"
  ; "//       const char* msg = [component]_get_error_string(result);"
  ; ("//       fprintf(stderr, " ++ dq ++ "Error: %s\n" ++ dq ++ ", msg);")%string
  ; "//   }"
  ; "//"
  ; "// Compile Commands:"
  ; "//   gcc -c -Wall -Wextra -std=c11 [source].c"
  ; "//   gcc -o [program] [source].o -l[library]"
  ; "//"
  ; "// ============================================================================"
  ; "// END CLOSING"
  ; "// ============================================================================"
  ; EmptyString
  ; "#endif // [HEADER_GUARD_NAME]_H"
  ; EmptyString
  ].

(** The whole file, line by line. *)
Definition text : list string :=
  (lines_0001_0050
   ++ lines_0051_0100
   ++ lines_0101_0150
   ++ lines_0151_0200
   ++ lines_0201_0250
   ++ lines_0251_0300
   ++ lines_0301_0350
   ++ lines_0351_0400
   ++ lines_0401_0450
   ++ lines_0451_0500
   ++ lines_0501_0550
   ++ lines_0551_0600
   ++ lines_0601_0650
   ++ lines_0651_0700
   ++ lines_0701_0750
   ++ lines_0751_0800
   ++ lines_0801_0850
   ++ lines_0851_0900
   ++ lines_0901_0950
   ++ lines_0951_0989)%list.

Definition file : template :=
  {| path := "src/skills/create-from-template/references/compiler-templates/c/c-header.h";
     lines := text |}.

(** The macro name written after a directive on line [n]. *)
Definition directive_macro (n : nat) : option string :=
  match CLex.line_at text n with
  | Some l =>
      match CLex.directive l with
      | Some (_, arg) => Some (CLex.first_word arg)
      | None => None
      end
  | None => None
  end.

End CHeader.


(* ------------------------------------------------------------------ *)
(** * The repository *)

Definition repository : list template := [CSource.file; CHeader.file].

(** A file is comment scaffolding only when nothing stands outside its
    comments. *)
Definition comment_only (t : template) : bool :=
  match CLex.active_lines (lines t) with [] => true | _ :: _ => false end.

(** The names a file defines: its functions, and the identifiers of its
    macro names. *)
Definition defined_names (t : template) : list string :=
  CLex.defined_functions (lines t)
  ++ flat_map (fun m => filter CLex.is_name (CLex.tokens_of_line m))
              (CLex.defined_macros (lines t)).

(** The tokens of [t] outside comments that name something [u] defines. *)
Definition references (t u : template) : list string :=
  filter (fun tok => CLex.mem tok (defined_names u))
         (CLex.active_tokens (lines t)).

(** The statements of the function bodies of a file, as tokens. *)
Definition statements (t : template) : list string :=
  CLex.inside_braces 0 (CLex.active_tokens (lines t)).

(** Every token of a file, comments included. *)
Definition raw_tokens (t : template) : list string :=
  flat_map CLex.tokens_of_line (lines t).

(** The four END markers stand once each, in the order METADATA, SETUP,
    BODY, CLOSING. *)
Definition blocks_in_order (t : template) : Prop :=
  exists m s b c : nat,
    CLex.block_marker "END METADATA" (lines t) = [m]
    /\ CLex.block_marker "END SETUP" (lines t) = [s]
    /\ CLex.block_marker "END BODY" (lines t) = [b]
    /\ CLex.block_marker "END CLOSING" (lines t) = [c]
    /\ (m < s)%nat /\ (s < b)%nat /\ (b < c)%nat.

(** Inside the SETUP block, the dividers Includes, [defines], [types] and
    Function Prototypes stand once each, in that order. *)
Definition setup_in_order (t : template) (defines types : string) : Prop :=
  exists s i d y f e : nat,
    CLex.block_marker "SETUP" (lines t) = [s]
    /\ CLex.section_divider "Includes" (lines t) = [i]
    /\ CLex.section_divider defines (lines t) = [d]
    /\ CLex.section_divider types (lines t) = [y]
    /\ CLex.section_divider "Function Prototypes" (lines t) = [f]
    /\ CLex.block_marker "END SETUP" (lines t) = [e]
    /\ (s < i)%nat /\ (i < d)%nat /\ (d < y)%nat /\ (y < f)%nat /\ (f < e)%nat.

(* ------------------------------------------------------------------ *)
(** * Layout of the comment scaffolding

    Readings of the comment text itself: which titles the rule lines
    frame, which standards document a section cites, which section order
    the SETUP block announces, and whether brackets balance. *)

Module Layout.

(** A title is a comment line other than the rule itself. *)
Definition is_title (rule l : string) : bool :=
  String.prefix "// " l && negb (String.eqb l rule).

Fixpoint framed_titles_from (n : nat) (rule : string) (ls : list string)
  : list (nat * string) :=
  match ls with
  | a :: ((b :: c :: _) as tl) =>
      (if String.eqb a rule && is_title rule b && String.eqb c rule
       then [(S n, b)] else [])
        ++ framed_titles_from (S n) rule tl
  | _ => []
  end.

(** Every title that stands between two [rule] lines, with its line
    number. *)
Definition framed_titles (rule : string) (ls : list string)
  : list (nat * string) :=
  framed_titles_from 1 rule ls.

(** The numbers of the lines equal to [l]. *)
Definition positions (l : string) (ls : list string) : list nat :=
  map fst (filter (fun p => String.eqb (snd p) l) (CLex.numbered ls)).

(** The lines just above and just below each framed title. *)
Definition frame_positions (rule : string) (ls : list string) : list nat :=
  flat_map (fun p => [pred (fst p); S (fst p)]) (framed_titles rule ls).

Definition block_markers : list string :=
  [ "// END METADATA"; "// SETUP"; "// END SETUP"; "// BODY"; "// END BODY";
    "// CLOSING"; "// END CLOSING" ].

Definition block_names : list string := ["SETUP"; "BODY"; "CLOSING"].

(** Line [n] stands after the opening marker of block [name] and before
    its END marker. *)
Definition inside_block (name : string) (ls : list string) (n : nat) : bool :=
  match CLex.block_marker name ls, CLex.block_marker ("END " ++ name) ls with
  | [a], [b] => Nat.ltb a n && Nat.ltb n b
  | _, _ => false
  end.

(** The section dividers of a block. *)
Definition sections_in (name : string) (ls : list string)
  : list (nat * string) :=
  filter (fun p => inside_block name ls (fst p))
         (framed_titles CLex.section_rule ls).

Definition drop (n : nat) (s : string) : string :=
  substring n (String.length s - n) s.

(** The titles of a block's sections, without the comment opener. *)
Definition section_titles (name : string) (ls : list string) : list string :=
  map (fun p => drop 3 (snd p)) (sections_in name ls).

(** ** Standards references *)

(** What follows the first occurrence of [pat] in [s]. *)
Fixpoint find_after (pat s : string) : option string :=
  if String.prefix pat s then Some (drop (String.length pat) s)
  else match s with
       | EmptyString => None
       | String _ rest => find_after pat rest
       end.

Definition digit_value (c : ascii) : nat := nat_of_ascii c - 48.

Fixpoint number_from (acc : nat) (seen : bool) (s : string) : option nat :=
  match s with
  | String c rest =>
      if CLex.is_digit c then number_from (10 * acc + digit_value c) true rest
      else if seen then Some acc else None
  | EmptyString => if seen then Some acc else None
  end.

(** The decimal number a string starts with. *)
Definition leading_number (s : string) : option nat := number_from 0 false s.

Definition is_rule (l : string) : bool :=
  String.eqb l CLex.section_rule || String.eqb l CLex.block_rule.

(** The number of the first [pat] document cited before the next rule
    line. *)
Fixpoint first_reference (pat : string) (ls : list string) : option nat :=
  match ls with
  | [] => None
  | l :: ls' =>
      if is_rule l then None
      else match find_after pat l with
           | Some r => leading_number r
           | None => first_reference pat ls'
           end
  end.

(** For each section of block [name], the number of the
    [CWS-SECTION-name-NNN] document its text cites first. *)
Definition section_references (name : string) (ls : list string)
  : list (option nat) :=
  map (fun p => first_reference ("CWS-SECTION-" ++ name ++ "-")
                                (skipn (S (fst p)) ls))
      (sections_in name ls).

(** ** The announced section order *)

(** Splits [s] at every occurrence of [sep]; [skip] counts the characters
    of a separator still to pass over, [cur] holds the piece being read. *)
Fixpoint split_on (sep : string) (skip : nat) (cur s : string) : list string :=
  match s with
  | EmptyString => [cur]
  | String c rest =>
      match skip with
      | S k => split_on sep k cur rest
      | O =>
          if String.prefix sep s
          then cur :: split_on sep (pred (String.length sep)) EmptyString rest
          else split_on sep 0 (cur ++ String c EmptyString) rest
      end
  end.

(** The section names listed by the first line that starts with
    [// Section order: ]. *)
Fixpoint announced_order (ls : list string) : option (list string) :=
  match ls with
  | [] => None
  | l :: ls' =>
      if String.prefix "// Section order: " l
      then Some (split_on " → " 0 EmptyString (drop 18 l))
      else announced_order ls'
  end.

(** The place of [x] in a list, counting from 0. *)
Fixpoint index_of (x : string) (l : list string) : option nat :=
  match l with
  | [] => None
  | y :: l' => if String.eqb x y then Some 0%nat
               else option_map S (index_of x l')
  end.

(** ** Brackets *)

(** The nesting depth after [s], starting at [depth]; [None] when a closing
    bracket has no opening one. *)
Fixpoint balance (o c : ascii) (depth : nat) (s : string) : option nat :=
  match s with
  | EmptyString => Some depth
  | String a rest =>
      if Ascii.eqb a o then balance o c (S depth) rest
      else if Ascii.eqb a c then
        match depth with
        | O => None
        | S d => balance o c d rest
        end
      else balance o c depth rest
  end.

Fixpoint balance_lines (o c : ascii) (depth : nat) (ls : list string)
  : option nat :=
  match ls with
  | [] => Some depth
  | l :: ls' =>
      match balance o c depth l with
      | Some d => balance_lines o c d ls'
      | None => None
      end
  end.

Definition brackets : list (ascii * ascii) :=
  [ ("["%char, "]"%char); ("("%char, ")"%char); ("{"%char, "}"%char) ].

(** ** Every standards reference of a section *)

(** The numbers that follow each occurrence of [pat] in [s]. *)
Fixpoint citations (pat s : string) : list nat :=
  match s with
  | EmptyString => []
  | String _ rest =>
      (if String.prefix pat s
       then match leading_number (drop (String.length pat) s) with
            | Some k => [k]
            | None => []
            end
       else [])
        ++ citations pat rest
  end.

(** The lines up to the next rule line. *)
Fixpoint until_rule (ls : list string) : list string :=
  match ls with
  | [] => []
  | l :: ls' => if is_rule l then [] else l :: until_rule ls'
  end.

(** For each section of block [name], the numbers of all the
    [CWS-SECTION-name-NNN] documents its text cites, in order. *)
Definition section_citations (name : string) (ls : list string)
  : list (list nat) :=
  map (fun p => flat_map (citations ("CWS-SECTION-" ++ name ++ "-"))
                         (until_rule (skipn (S (fst p)) ls)))
      (sections_in name ls).

End Layout.

(* ------------------------------------------------------------------ *)
(** * The METADATA headings *)

(** The lines that start with [// # ], with their numbers: the headings of
    the METADATA documentation. *)
Definition headings (t : template) : list (nat * string) :=
  filter (fun p => String.prefix "// # " (snd p)) (CLex.numbered (lines t)).

(** Line [n] stands above the END METADATA marker. *)
Definition in_metadata (t : template) (n : nat) : bool :=
  match CLex.block_marker "END METADATA" (lines t) with
  | [e] => Nat.ltb n e
  | _ => false
  end.

(* ------------------------------------------------------------------ *)
(** * Properties of the lexical reading *)

Section Scanner.

(** Inside a line comment nothing is kept. *)
Lemma scan_in_line_comment (s : string) :
  CLex.scan CLex.InLine s = (EmptyString, CLex.InLine).
Proof.
  induction s as [|c s IH]; simpl; [reflexivity | exact IH].
Qed.

(** A line that starts with [//] leaves one space. *)
Lemma scan_comment_line (s : string) :
  CLex.scan CLex.Code ("//" ++ s) = (" ", CLex.InLine).
Proof.
  simpl. rewrite scan_in_line_comment. reflexivity.
Qed.

Lemma comment_line_is_blank (s : string) :
  CLex.is_blank (fst (CLex.scan CLex.Code ("//" ++ s))) = true.
Proof.
  rewrite scan_comment_line. reflexivity.
Qed.

(** The stripped file has one entry per line, so line numbers are those
    of the file. *)
Lemma strip_comments_from_length (ls : list string) :
  forall m, List.length (CLex.strip_comments_from m ls) = List.length ls.
Proof.
  induction ls as [|l ls IH]; intro m; simpl; [reflexivity|].
  destruct (CLex.scan m l) as [o e]. simpl. now rewrite IH.
Qed.

(** No line of either file ends in a backslash: physical and logical
    lines coincide. *)
Lemma no_spliced_lines :
  existsb CLex.ends_with_backslash (CSource.text ++ CHeader.text) = false.
Proof. vm_compute. reflexivity. Qed.

End Scanner.

(* ------------------------------------------------------------------ *)
(** * What stands outside the comments *)

(** A property of both templates is a property of the repository. *)
Lemma Forall_repository (P : template -> Prop) :
  P CSource.file -> P CHeader.file -> Forall P repository.
Proof.
  intros Hc Hh. unfold repository.
  apply Forall_cons; [exact Hc|]. apply Forall_cons; [exact Hh|].
  apply Forall_nil.
Qed.

Lemma source_active_lines :
  CLex.active_lines CSource.text
  = [ (838%nat, "int main(int argc, char* argv[]) {");
      (869%nat, "    return 0;");
      (870%nat, "}") ].
Proof. vm_compute. reflexivity. Qed.

Lemma header_active_lines :
  CLex.active_lines CHeader.text
  = [ (24%nat, "#ifndef [HEADER_GUARD_NAME]_H");
      (25%nat, "#define [HEADER_GUARD_NAME]_H");
      (988%nat, "#endif  ") ].
Proof. vm_compute. reflexivity. Qed.

Lemma source_active_tokens :
  CLex.active_tokens CSource.text
  = [ "int"; "main"; "("; "int"; "argc"; ","; "char"; "*"; "argv"; "[";
      "]"; ")"; "{"; "return"; "0"; ";"; "}" ].
Proof.
  unfold CLex.active_tokens. rewrite source_active_lines. reflexivity.
Qed.

Lemma header_active_tokens :
  CLex.active_tokens CHeader.text
  = [ "#"; "ifndef"; "["; "HEADER_GUARD_NAME"; "]"; "_H";
      "#"; "define"; "["; "HEADER_GUARD_NAME"; "]"; "_H";
      "#"; "endif" ].
Proof.
  unfold CLex.active_tokens. rewrite header_active_lines. reflexivity.
Qed.

Lemma source_statements : statements CSource.file = ["return"; "0"; ";"].
Proof.
  unfold statements. simpl lines. rewrite source_active_tokens. reflexivity.
Qed.

Lemma header_statements : statements CHeader.file = [].
Proof.
  unfold statements. simpl lines. rewrite header_active_tokens. reflexivity.
Qed.

Lemma source_defined_functions :
  CLex.defined_functions CSource.text = ["main"].
Proof.
  unfold CLex.defined_functions. rewrite source_active_tokens. reflexivity.
Qed.

Lemma header_defined_functions :
  CLex.defined_functions CHeader.text = [].
Proof.
  unfold CLex.defined_functions. rewrite header_active_tokens. reflexivity.
Qed.

Lemma source_active_directives : CLex.active_directives CSource.text = [].
Proof.
  unfold CLex.active_directives. rewrite source_active_lines. reflexivity.
Qed.

Lemma header_active_directives :
  CLex.active_directives CHeader.text
  = [ (24%nat, ("ifndef", "[HEADER_GUARD_NAME]_H"));
      (25%nat, ("define", "[HEADER_GUARD_NAME]_H"));
      (988%nat, ("endif", EmptyString)) ].
Proof.
  unfold CLex.active_directives. rewrite header_active_lines. reflexivity.
Qed.

(* ------------------------------------------------------------------ *)
(** * The entry point *)

Section EntryPoint.

Variables (argc : Z) (argv : list string) (s : Exec.state).

Lemma main_result : CSource.main argc argv s = (0%Z, s).
Proof. reflexivity. Qed.

Lemma produced_nothing (r : Z) : Exec.produced s (r, s) = Some [].
Proof.
  unfold Exec.produced, Exec.final_state. simpl.
  rewrite Nat.leb_refl, skipn_all. reflexivity.
Qed.

End EntryPoint.

(* ------------------------------------------------------------------ *)
(** * Include guards *)

Lemma span_all (p : ascii -> bool) (s : string) :
  forallb p (list_ascii_of_string s) = true ->
  CLex.span p s = (s, EmptyString).
Proof.
  induction s as [|c s IH]; simpl; [reflexivity|].
  intro H. apply andb_true_iff in H. destruct H as [Hc Hs].
  now rewrite Hc, (IH Hs).
Qed.

Section Guard.

Variable g : string.
Hypothesis Hg : Cpp.is_macro_name g = true.

Lemma ifndef_macro_name : Cpp.ifndef_macro g = Some g.
Proof. unfold Cpp.ifndef_macro. now rewrite Hg. Qed.

Lemma define_macro_name : Cpp.define_macro g = Some g.
Proof.
  unfold Cpp.define_macro.
  assert (A : forallb CLex.is_ident_char (list_ascii_of_string g) = true).
  { unfold Cpp.is_macro_name in Hg.
    apply andb_true_iff in Hg. destruct Hg as [H _].
    apply andb_true_iff in H. now destruct H. }
  rewrite (span_all _ _ A), Hg. reflexivity.
Qed.

Lemma defined_define (ms : list string) :
  Cpp.defined g (Cpp.define g ms) = true.
Proof.
  unfold Cpp.define. destruct (Cpp.defined g ms) eqn:E; [exact E|].
  unfold Cpp.defined, CLex.mem. simpl. now rewrite String.eqb_refl.
Qed.

Lemma define_defined (ms : list string) :
  Cpp.defined g ms = true -> Cpp.define g ms = ms.
Proof. unfold Cpp.define. now intros ->. Qed.

(** The text of a group is passed on exactly when the group's condition
    holds. *)
Lemma run_group (body : list string) (ms : list string) (b : bool) :
  Cpp.run ms [b] (map Cpp.Text body ++ [Cpp.Endif])
  = Cpp.Done ms (if b then body else []).
Proof.
  induction body as [|l body IH]; simpl.
  - now destruct b.
  - rewrite IH. unfold Cpp.processing. simpl. now destruct b.
Qed.

Lemma run_guarded (body : list string) (ms : list string) :
  Cpp.run ms [] (Cpp.guarded g body)
  = Cpp.Done (Cpp.define g ms) (if Cpp.defined g ms then [] else body).
Proof.
  unfold Cpp.guarded.
  change (Cpp.run ms [] (Cpp.Ifndef g :: ?r))
    with (match Cpp.ifndef_macro g with
          | Some m => Cpp.run ms [negb (Cpp.defined m ms)] r
          | None => Cpp.Rejected (Cpp.BadMacroName "ifndef" g)
          end).
  rewrite ifndef_macro_name.
  destruct (Cpp.defined g ms) eqn:E.
  - change (Cpp.run ms [negb true] (Cpp.Define g :: ?r))
      with (Cpp.run ms [false] r).
    rewrite run_group. now rewrite define_defined.
  - change (Cpp.run ms [negb false] (Cpp.Define g :: ?r))
      with (match Cpp.define_macro g with
            | Some m => Cpp.run (Cpp.define m ms) [true] r
            | None => Cpp.Rejected (Cpp.BadMacroName "define" g)
            end).
    rewrite define_macro_name, run_group. reflexivity.
Qed.

(** Under a guard whose name is an identifier, the first inclusion defines
    the guard and passes the text on, and a second one defines nothing
    more and passes nothing on. *)
Lemma guarded_twice (body : list string) (ms : list string) :
  Cpp.defined g ms = false ->
  Cpp.run ms [] (Cpp.guarded g body) = Cpp.Done (g :: ms) body
  /\ Cpp.run (g :: ms) [] (Cpp.guarded g body) = Cpp.Done (g :: ms) [].
Proof.
  intro E. rewrite !run_guarded.
  unfold Cpp.define at 1. rewrite E. split; [reflexivity|].
  assert (D : Cpp.defined g (g :: ms) = true).
  { unfold Cpp.defined, CLex.mem. simpl. now rewrite String.eqb_refl. }
  now rewrite D, define_defined.
Qed.

End Guard.

(** The header template has the shape of a guarded file with no text. *)
Lemma header_is_guarded :
  Cpp.plines CHeader.text = Cpp.guarded "[HEADER_GUARD_NAME]_H" [].
Proof.
  unfold Cpp.plines. rewrite header_active_lines. reflexivity.
Qed.

(** Its guard is rejected on line 24, whatever is defined beforehand. *)
Lemma header_rejected (ms : list string) :
  Cpp.include ms CHeader.text
  = Cpp.Rejected (Cpp.BadMacroName "ifndef" "[HEADER_GUARD_NAME]_H").
Proof.
  unfold Cpp.include. rewrite header_is_guarded. reflexivity.
Qed.

(* ------------------------------------------------------------------ *)
(** * The claims *)

(** C1, as stated: every file is comment scaffolding only and defines no
    function.  This fails: the source template has three lines outside
    comments and they define [main]. *)
Lemma C1_source_defines_main :
  ~ Forall (fun t => comment_only t = true
                     /\ CLex.defined_functions (lines t) = [])
           repository.
Proof.
  intro H. apply Forall_inv in H. destruct H as [_ H].
  simpl lines in H. rewrite source_defined_functions in H. discriminate H.
Qed.

(** C1, amended: outside comments the source template holds exactly the
    definition of [main], whose only statement is [return 0;], and the
    header template holds exactly the three directives of its include
    guard; neither file includes anything or calls anything, so nothing
    reads or expands the templates. *)
Theorem C1_text_outside_comments :
  CLex.active_lines (lines CSource.file)
  = [ (838%nat, "int main(int argc, char* argv[]) {");
      (869%nat, "    return 0;");
      (870%nat, "}") ]
  /\ CLex.defined_functions (lines CSource.file) = ["main"]
  /\ statements CSource.file = ["return"; "0"; ";"]
  /\ CLex.active_lines (lines CHeader.file)
     = [ (24%nat, "#ifndef [HEADER_GUARD_NAME]_H");
         (25%nat, "#define [HEADER_GUARD_NAME]_H");
         (988%nat, "#endif  ") ]
  /\ CLex.defined_functions (lines CHeader.file) = []
  /\ statements CHeader.file = []
  /\ Forall (fun t => CLex.active_includes (lines t) = []
                      /\ CLex.calls (statements t) = [])
            repository.
Proof.
  simpl lines.
  split; [exact source_active_lines|].
  split; [exact source_defined_functions|].
  split; [exact source_statements|].
  split; [exact header_active_lines|].
  split; [exact header_defined_functions|].
  split; [exact header_statements|].
  apply Forall_repository; split.
  - unfold CLex.active_includes. simpl lines.
    now rewrite source_active_directives.
  - now rewrite source_statements.
  - unfold CLex.active_includes. simpl lines.
    now rewrite header_active_directives.
  - now rewrite header_statements.
Qed.

(** C2: whatever the argument count, the argument vector and the state it
    starts in, [main] returns exit code 0, and it reports nothing: the run
    adds no event to the trace. *)
Theorem C2_main_exit_code_zero :
  forall (argc : Z) (argv : list string) (s : Exec.state),
    Exec.exit_code (CSource.main argc argv s) = 0%Z
    /\ Z.eqb (Exec.exit_code (CSource.main argc argv s)) 0 = true
    /\ Exec.produced s (CSource.main argc argv s) = Some [].
Proof.
  intros argc argv s. rewrite main_result.
  repeat split. apply produced_nothing.
Qed.

(** C3: in each of the two templates the markers END METADATA, END SETUP,
    END BODY and END CLOSING stand once each and in that order. *)
Theorem C3_blocks_in_order : Forall blocks_in_order repository.
Proof.
  apply Forall_repository.
  - exists 138%nat, 414%nat, 750%nat, 1192%nat.
    repeat split; try (vm_compute; reflexivity); lia.
  - exists 161%nat, 437%nat, 627%nat, 985%nat.
    repeat split; try (vm_compute; reflexivity); lia.
Qed.

(** C4, as stated: no file has a struct, enum, union or typedef outside
    comments, and no file has a statement outside comments.  The second
    part fails on the source template, whose [main] executes
    [return 0;]. *)
Lemma C4_source_has_a_statement :
  ~ Forall (fun t =>
              CLex.mentions_any CLex.type_keywords
                                (CLex.active_tokens (lines t)) = false
              /\ statements t = [])
           repository.
Proof.
  intro H. apply Forall_inv in H. destruct H as [_ H].
  rewrite source_statements in H. discriminate H.
Qed.

(** C4, amended: neither template has a struct, enum, union or typedef
    outside comments, and the only statement outside comments is the
    [return 0;] of [main] in the source template; no file has a loop, a
    branch or a call. *)
Theorem C4_no_types_one_statement :
  Forall (fun t =>
            CLex.mentions_any CLex.type_keywords
                              (CLex.active_tokens (lines t)) = false
            /\ CLex.mentions_any (CLex.loop_keywords ++ CLex.branch_keywords)
                                 (CLex.active_tokens (lines t)) = false
            /\ CLex.calls (statements t) = [])
         repository
  /\ statements CSource.file = ["return"; "0"; ";"]
  /\ statements CHeader.file = [].
Proof.
  split; [|split; [exact source_statements | exact header_statements]].
  apply Forall_repository; simpl lines;
    rewrite ?source_active_tokens, ?header_active_tokens,
            ?source_statements, ?header_statements;
    repeat split; reflexivity.
Qed.

(** C5: the repository is two files, one with extension .c and one with
    extension .h; neither has an [#include] outside comments, and neither
    names, outside comments, anything the other defines. *)
Theorem C5_two_independent_files :
  List.length repository = 2%nat
  /\ repository = [CSource.file; CHeader.file]
  /\ has_extension ".c" CSource.file = true
  /\ has_extension ".h" CHeader.file = true
  /\ Forall (fun t => CLex.active_includes (lines t) = []) repository
  /\ references CSource.file CHeader.file = []
  /\ references CHeader.file CSource.file = [].
Proof.
  split; [reflexivity|]. split; [reflexivity|].
  split; [vm_compute; reflexivity|]. split; [vm_compute; reflexivity|].
  split.
  - apply Forall_repository; unfold CLex.active_includes; simpl lines;
      rewrite ?source_active_directives, ?header_active_directives;
      reflexivity.
  - split; vm_compute; reflexivity.
Qed.

(** C6: [static] and [extern] occur in both templates, but in comments
    only; [main] is the one function defined; its body names no variable,
    it leaves the state as it found it, and its result is the same from
    any two states; no thread is started, the run adds nothing to the
    trace. *)
Theorem C6_no_shared_state :
  Forall (fun t =>
            CLex.mentions_any CLex.storage_keywords
                              (CLex.active_tokens (lines t)) = false)
         repository
  /\ CLex.mem "static" (raw_tokens CSource.file) = true
  /\ CLex.mem "extern" (raw_tokens CHeader.file) = true
  /\ flat_map (fun t => CLex.defined_functions (lines t)) repository
     = ["main"]
  /\ filter CLex.is_name (statements CSource.file) = []
  /\ (forall (argc : Z) (argv : list string) (s : Exec.state),
         Exec.final_state (CSource.main argc argv s) = s
         /\ Exec.produced s (CSource.main argc argv s) = Some [])
  /\ (forall (argc : Z) (argv : list string) (s1 s2 : Exec.state),
         Exec.exit_code (CSource.main argc argv s1)
         = Exec.exit_code (CSource.main argc argv s2)).
Proof.
  split.
  { apply Forall_repository; simpl lines;
      rewrite ?source_active_tokens, ?header_active_tokens; reflexivity. }
  split; [vm_compute; reflexivity|].
  split; [vm_compute; reflexivity|].
  split.
  { change (CLex.defined_functions CSource.text
            ++ CLex.defined_functions CHeader.text ++ [] = ["main"]).
    rewrite source_defined_functions, header_defined_functions.
    reflexivity. }
  split; [now rewrite source_statements|].
  split.
  - intros argc argv s. rewrite main_result. split; [reflexivity|].
    apply produced_nothing.
  - intros argc argv s1 s2. now rewrite !main_result.
Qed.

(** C7: inside the SETUP block of each template the dividers stand in the
    order Includes, Defines, Types, Function Prototypes; the source
    template titles them Defines (Constants) and Types, the header
    template Defines and Type Definitions. *)
Theorem C7_setup_sections_in_order :
  setup_in_order CSource.file "Defines (Constants)" "Types"
  /\ setup_in_order CHeader.file "Defines" "Type Definitions".
Proof.
  split.
  - exists 142%nat, 165%nat, 200%nat, 264%nat, 337%nat, 414%nat.
    repeat split; try (vm_compute; reflexivity); lia.
  - exists 165%nat, 186%nat, 220%nat, 246%nat, 335%nat, 437%nat.
    repeat split; try (vm_compute; reflexivity); lia.
Qed.

(** C8: two runs of [main], with any arguments and from any states, return
    the same value and neither adds an event to the trace; the body does
    not name [argc] or [argv]. *)
Theorem C8_main_noninterference :
  (forall (argc1 argc2 : Z) (argv1 argv2 : list string)
          (s1 s2 : Exec.state),
      Exec.exit_code (CSource.main argc1 argv1 s1)
      = Exec.exit_code (CSource.main argc2 argv2 s2)
      /\ Exec.produced s1 (CSource.main argc1 argv1 s1) = Some []
      /\ Exec.produced s2 (CSource.main argc2 argv2 s2) = Some [])
  /\ CLex.mentions_any ["argc"; "argv"] (statements CSource.file) = false
  /\ CLex.calls (statements CSource.file) = [].
Proof.
  split.
  - intros. rewrite !main_result. repeat split; apply produced_nothing.
  - rewrite source_statements. split; reflexivity.
Qed.

(** C9: the body of [main] is the single statement [return 0;]: no loop
    keyword, no call, no mention of [main] itself; and [main] yields a
    result for every argument count, argument vector and state. *)
Theorem C9_main_terminates :
  statements CSource.file = ["return"; "0"; ";"]
  /\ CLex.mentions_any CLex.loop_keywords (statements CSource.file) = false
  /\ CLex.calls (statements CSource.file) = []
  /\ CLex.mem "main" (statements CSource.file) = false
  /\ (forall (argc : Z) (argv : list string) (s : Exec.state),
         exists (r : Z) (s' : Exec.state),
           CSource.main argc argv s = (r, s')).
Proof.
  rewrite source_statements. repeat split.
  intros argc argv s. exists 0%Z, s. apply main_result.
Qed.

(** C10, as stated: the macro of line 24 is the macro of line 25, the
    [#endif] of line 988 closes the [#ifndef] of line 24, and whatever is
    defined beforehand the header can be included and a second inclusion
    defines nothing more and passes no text on.  This fails: the
    preprocessor rejects the header at its first inclusion, because the
    guard's token is not an identifier. *)
Lemma C10_unfilled_header_rejected :
  ~ (CHeader.directive_macro 25 = CHeader.directive_macro 24
     /\ CLex.match_conditionals [] (CLex.active_directives CHeader.text)
        = Some [(24%nat, 988%nat)]
     /\ (forall ms : list string,
            exists ms1 out1,
              Cpp.include ms CHeader.text = Cpp.Done ms1 out1
              /\ Cpp.include ms1 CHeader.text = Cpp.Done ms1 [])).
Proof.
  intros (_ & _ & H). destruct (H []) as (ms1 & out1 & E & _).
  rewrite header_rejected in E. discriminate E.
Qed.

(** C10, amended: the macro tested on line 24 of the header template is,
    character for character, the macro defined on line 25; the last
    directive, on line 988, is the [#endif] that closes the [#ifndef] of
    line 24 and its comment repeats the macro; these are the file's only
    directives and no text stands between them.  The macro is the
    placeholder [[HEADER_GUARD_NAME]_H], which is not an identifier: as
    the template stands the preprocessor rejects line 24, so no inclusion
    of it, the first or a later one, passes any text on. *)
Theorem C10_include_guard :
  CHeader.directive_macro 24 = Some "[HEADER_GUARD_NAME]_H"
  /\ CHeader.directive_macro 25 = CHeader.directive_macro 24
  /\ CLex.active_directives CHeader.text
     = [ (24%nat, ("ifndef", "[HEADER_GUARD_NAME]_H"));
         (25%nat, ("define", "[HEADER_GUARD_NAME]_H"));
         (988%nat, ("endif", EmptyString)) ]
  /\ CLex.match_conditionals [] (CLex.active_directives CHeader.text)
     = Some [(24%nat, 988%nat)]
  /\ CLex.line_at CHeader.text 988 = Some "#endif // [HEADER_GUARD_NAME]_H"
  /\ Cpp.plines CHeader.text = Cpp.guarded "[HEADER_GUARD_NAME]_H" []
  /\ Cpp.is_macro_name "[HEADER_GUARD_NAME]_H" = false
  /\ (forall ms : list string,
         Cpp.include ms CHeader.text
         = Cpp.Rejected (Cpp.BadMacroName "ifndef" "[HEADER_GUARD_NAME]_H")).
Proof.
  split; [vm_compute; reflexivity|].
  split; [vm_compute; reflexivity|].
  split; [exact header_active_directives|].
  split; [now rewrite header_active_directives|].
  split; [vm_compute; reflexivity|].
  split; [exact header_is_guarded|].
  split; [reflexivity|].
  exact header_rejected.
Qed.

(* ------------------------------------------------------------------ *)
(** * Layout of the scaffolding *)

(** X1: in both templates the titles framed by [====] rules are exactly
    the seven block markers END METADATA, SETUP, END SETUP, BODY, END BODY,
    CLOSING, END CLOSING, once each and in this order; each block opens
    right after the previous one ends: the opening marker stands four
    lines below the END marker, with the two rules and one empty line
    between them; and every [====] rule line is the upper or lower rule of
    one of these frames. *)
Theorem X1_block_frames :
  Forall (fun t =>
            (exists m s b c : nat,
                Layout.framed_titles CLex.block_rule (lines t)
                = [ (m, "// END METADATA"); ((m + 4)%nat, "// SETUP");
                    (s, "// END SETUP"); ((s + 4)%nat, "// BODY");
                    (b, "// END BODY"); ((b + 4)%nat, "// CLOSING");
                    (c, "// END CLOSING") ]
                /\ CLex.line_at (lines t) (m + 2) = Some EmptyString
                /\ CLex.line_at (lines t) (s + 2) = Some EmptyString
                /\ CLex.line_at (lines t) (b + 2) = Some EmptyString)
            /\ map snd (Layout.framed_titles CLex.block_rule (lines t))
               = Layout.block_markers
            /\ Layout.positions CLex.block_rule (lines t)
               = Layout.frame_positions CLex.block_rule (lines t))
         repository.
Proof.
  apply Forall_repository; (split; [|split; vm_compute; reflexivity]).
  - exists 138%nat, 414%nat, 750%nat, 1192%nat.
    split; [|split; [|split]]; vm_compute; reflexivity.
  - exists 161%nat, 437%nat, 627%nat, 985%nat.
    split; [|split; [|split]]; vm_compute; reflexivity.
Qed.

(** X2: in both templates every section divider stands inside the SETUP,
    the BODY or the CLOSING block (none in METADATA, none between blocks),
    and every [────] rule line is the upper or lower rule of a divider. *)
Theorem X2_sections_inside_blocks :
  Forall (fun t =>
            Layout.framed_titles CLex.section_rule (lines t)
            = flat_map (fun name => Layout.sections_in name (lines t))
                       Layout.block_names
            /\ Layout.positions CLex.section_rule (lines t)
               = Layout.frame_positions CLex.section_rule (lines t))
         repository.
Proof.
  apply Forall_repository; split; vm_compute; reflexivity.
Qed.

(** X3: the two templates keep the same CLOSING layout and nearly the
    same BODY layout.  In each, the thirteen CLOSING sections cite one
    CWS-SECTION-CLOSING document each, 001 to 013 in this order, and from
    the fifth section on their titles are the same in both templates.
    The seven BODY sections of the source template cite
    CWS-SECTION-BODY-001, 002, 003, nothing, nothing, 004, 005; those of
    the header template cite the same, except that its first section
    cites 005 after 001. *)
Theorem X3_body_and_closing_layout :
  Forall (fun t =>
            Layout.section_citations "CLOSING" (lines t)
            = map (fun k => [k]) (seq 1 13))
         repository
  /\ Layout.section_citations "BODY" (lines CSource.file)
     = [ [1]; [2]; [3]; []; []; [4]; [5] ]%nat
  /\ Layout.section_citations "BODY" (lines CHeader.file)
     = [ [1; 5]; [2]; [3]; []; []; [4]; [5] ]%nat
  /\ skipn 4 (Layout.section_titles "CLOSING" (lines CSource.file))
     = skipn 4 (Layout.section_titles "CLOSING" (lines CHeader.file))
  /\ List.length (Layout.section_titles "CLOSING" (lines CSource.file))
     = 13%nat.
Proof.
  split; [apply Forall_repository; vm_compute; reflexivity|].
  split; [vm_compute; reflexivity|].
  split; [vm_compute; reflexivity|].
  split; vm_compute; reflexivity.
Qed.

(** X4: the header template's SETUP block has exactly the sections its
    Section order line announces, in that order.  The source template's
    has not: its sections are Includes, Defines (Constants), Static
    Variables, Types, Function Prototypes, File-Level State (Rails
    Pattern), citing CWS-SECTION-SETUP-001 to 006 in increasing order, so
    Static Variables comes before Types, while its Section order line
    lists Types before Static Variables. *)
Theorem X4_setup_order_announced :
  Layout.announced_order (lines CHeader.file)
  = Some (Layout.section_titles "SETUP" (lines CHeader.file))
  /\ Layout.section_titles "SETUP" (lines CSource.file)
     = [ "Includes"; "Defines (Constants)"; "Static Variables"; "Types";
         "Function Prototypes"; "File-Level State (Rails Pattern)" ]
  /\ Layout.section_references "SETUP" (lines CSource.file)
     = map Some (seq 1 6)
  /\ Layout.announced_order (lines CSource.file)
     = Some [ "Includes"; "Defines"; "Types"; "Static Variables";
              "Function Prototypes" ]
  /\ (exists a b c d : nat,
         Layout.index_of "Static Variables"
           (Layout.section_titles "SETUP" (lines CSource.file)) = Some a
         /\ Layout.index_of "Types"
              (Layout.section_titles "SETUP" (lines CSource.file)) = Some b
         /\ option_map (Layout.index_of "Types")
              (Layout.announced_order (lines CSource.file)) = Some (Some c)
         /\ option_map (Layout.index_of "Static Variables")
              (Layout.announced_order (lines CSource.file)) = Some (Some d)
         /\ (a < b)%nat /\ (c < d)%nat).
Proof.
  split; [vm_compute; reflexivity|].
  split; [vm_compute; reflexivity|].
  split; [vm_compute; reflexivity|].
  split; [vm_compute; reflexivity|].
  exists 2%nat, 3%nat, 2%nat, 3%nat.
  repeat split; try (vm_compute; reflexivity); lia.
Qed.

(** X5: in both templates square brackets, parentheses and braces balance
    over the whole file: no closing bracket comes before its opening one,
    and none is left open at the end. *)
Theorem X5_brackets_balanced :
  Forall (fun t =>
            Forall (fun p =>
                      Layout.balance_lines (fst p) (snd p) 0 (lines t)
                      = Some 0%nat)
                   Layout.brackets)
         repository.
Proof.
  apply Forall_repository; unfold Layout.brackets;
    repeat (apply Forall_cons; [vm_compute; reflexivity|]); apply Forall_nil.
Qed.

(** X7: the two templates carry the same eight METADATA headings, in the
    same order, and every heading stands above the END METADATA marker. *)
Theorem X7_metadata_headings :
  Forall (fun t =>
            map (fun p => Layout.drop 5 (snd p)) (headings t)
            = [ "Biblical Foundation"; "CPI-SI Identity";
                "Authorship & Lineage"; "Purpose & Function";
                "Blocking Status"; "Usage & Integration"; "Dependencies";
                "Health Scoring" ]
            /\ forallb (fun p => in_metadata t (fst p)) (headings t) = true)
         repository.
Proof.
  apply Forall_repository; split; vm_compute; reflexivity.
Qed.
